(** * Elevator controller: CANModule.cpp and ElevatorController.cpp

    A shallow embedding of the CAN receive/transmit paths and of the
    control cycle ([setup], [loop], [Move], [checkCurrentFloor]), with the
    properties of the design document stated over it.

    Conventions.
    - Integers are [Z].  The target is the 16-bit AVR of the Arduino UNO
      (the timer code programs TCCR1A/TCCR1B/OCR1A), so [int] has 16 bits:
      conversions to [int], [uint16_t] and [byte] are written out with
      [int16], [uint16] and [byte].
    - [float] arithmetic is modelled by exact rational arithmetic in [Q];
      the C library's [exp] is a parameter.  The facts proved about the
      shaped value (zero maps to zero, sign symmetry, the clamp) do not
      depend on rounding.
    - Everything the program does to the outside world (serial log, LCD,
      CAN controller, distance sensor, DAC) is recorded as a list of
      [event]s, in program order. *)

From Stdlib Require Import ZArith QArith List String Bool Lia.
Import ListNotations.
Local Open Scope Z_scope.

(** ** Constants of the header files

    CANModule.h and ElevatorController.h declare the constants below;
    the two .cpp files only name them.  They are kept as one record so
    that every statement holds for whatever values the headers give. *)

Record Header : Type := mkHeader {
  FLOOR1 : Z;
  FLOOR2 : Z;
  FLOOR3 : Z;
  FLOOR1_SP : Z;
  FLOOR2_SP : Z;
  FLOOR3_SP : Z;
  MINHEIGHT : Z;
  MAXHEIGHT : Z;
  SETPOINT_TOLERANCE : Z;
  A : Q;
  DAMPENER : Z;
  diffMax : Z;
  TxID : Z;
  DLC : Z
}.

(** ** Machine integers *)

(** Conversion to [byte] (8 bits, unsigned). *)
Definition byte (z : Z) : Z := z mod 256.

(** Conversion to [uint16_t]. *)
Definition uint16 (z : Z) : Z := z mod 65536.

(** Conversion to the 16-bit two's complement [int]. *)
Definition int16 (z : Z) : Z := (z + 32768) mod 65536 - 32768.

(** Arduino's [abs] macro, [((x)>0?(x):-(x))], on [int]. *)
Definition abs (x : Z) : Z := if x >? 0 then x else int16 (- x).

(** Conversion of a [float] to [int]: the fractional part is discarded. *)
Definition Qtrunc (q : Q) : Z := Z.quot (Qnum q) (Zpos (Qden q)).

(** ** Observable actions *)

(** What [sprintf] puts into [msgString] before it is printed. *)
Inductive message : Type :=
| RX_Extended_ID (id len : Z)
| RX_Standard_ID (id len : Z)
| REMOTE_REQUEST_FRAME
| RX_Data (b : Z)
| TX_Data (id data : Z)
| TX_Error
| Newline.

Inductive event : Type :=
| Serial_print (m : message)
| CAN_readMsgBuf
| CAN_sendMsgBuf (id ext dlc : Z) (data : list Z)
| LCD_setCursor (col row : Z)
| LCD_print (s : string)
| LCD_loop (dist : Z)
| Sensor_start
| Sensor_getDistance (dist : Z)
| Sensor_stop
| Delay (ms : Z)
| DAC_transferDAC (value : Z).

(** ** Program state *)

(** The members of [CANModule] that the code reads and writes. *)
Record CANModule : Type := mkCANModule {
  setpoint : Z;
  txdata : list Z;
  rxdata : list Z;
  RxID : Z;
  len : Z
}.

(** The display behind [LCD::lcdObj]: the cursor, the text that starts
    at column 0 of line 0, and the distance shown by [LCD::loop]. *)
Record LCD : Type := mkLCD {
  cursor : Z * Z;
  floorLabel : string;
  shownDistance : option Z
}.

Record ElevatorController : Type := mkElevatorController {
  CM : CANModule;
  LCDM : LCD;
  m_dist : Z;
  m_currentFloor : Z;
  a : Q;
  flagRecv : bool;
  flagTx : bool
}.

(** What the surroundings supply during one control cycle. *)
Record Frame : Type := mkFrame {
  frame_id : Z;
  frame_len : Z;
  frame_data : list Z
}.

Record Input : Type := mkInput {
  bus : option Frame;
  sndStat : bool;
  distance : Z
}.

(** ** CANModule *)

Definition getSetpoint (cm : CANModule) : Z := setpoint cm.

Definition setSetpoint (sp : Z) (cm : CANModule) : CANModule :=
  mkCANModule (uint16 sp) (txdata cm) (rxdata cm) (RxID cm) (len cm).

Definition getTxdata (cm : CANModule) : Z := nth 0 (txdata cm) 0.

Definition setTxdata (data : Z) (cm : CANModule) : CANModule :=
  mkCANModule (setpoint cm) (byte data :: tl (txdata cm)) (rxdata cm)
              (RxID cm) (len cm).

(** [mcp2515.readMsgBuf(&RxID, &len, rxdata)]: with a message waiting,
    the identifier (with the library's extended and remote-request bits),
    the length and the first [len] data bytes are stored; with none,
    nothing is written. *)
Definition readMsgBuf (f : option Frame) (cm : CANModule) : CANModule :=
  match f with
  | None => cm
  | Some fr =>
      let n := Z.to_nat (frame_len fr) in
      mkCANModule (setpoint cm) (txdata cm)
                  (firstn n (frame_data fr) ++ skipn n (rxdata cm))
                  (frame_id fr) (frame_len fr)
  end.

(** [lcdObj.setCursor] and [lcdObj.print]. *)
Definition lcd_setCursor (col row : Z) (lcd : LCD) : LCD :=
  mkLCD (col, row) (floorLabel lcd) (shownDistance lcd).

Definition lcd_print (s : string) (lcd : LCD) : LCD :=
  let '(col, row) := cursor lcd in
  mkLCD (col + Z.of_nat (String.length s), row)
        (if (col =? 0) && (row =? 0) then s else floorLabel lcd)
        (shownDistance lcd).

(** Modelled from the spec: [LCD::loop] is defined in a file that is not
    part of the sources; the display interface says that [showDistance]
    writes the live distance reading. *)
Definition LCD_loop_model (dist : Z) (lcd : LCD) : LCD :=
  mkLCD (cursor lcd) (floorLabel lcd) (Some dist).

Section Controller.

Variable h : Header.

(** The C library's [exp]. *)
Variable exp : Q -> Q.

Definition transmitCAN (ok : bool) (cm : CANModule) : list event :=
  [ CAN_sendMsgBuf (TxID h) 0 (DLC h) (firstn (Z.to_nat (DLC h)) (txdata cm));
    Serial_print (if ok then TX_Data (TxID h) (nth 0 (txdata cm) 0)
                  else TX_Error) ].

(** [receiveCAN(LCD lcd)].  The [LCD] object is passed by value, but the
    copy drives the same display, so the display is threaded through. *)
Definition receiveCAN (f : option Frame) (cm : CANModule) (lcd : LCD)
  : CANModule * LCD * list event :=
  let cm := readMsgBuf f cm in
  let header :=
    if Z.land (RxID cm) 0x80000000 =? 0x80000000
    then RX_Extended_ID (Z.land (RxID cm) 0x1FFFFFFF) (len cm)
    else RX_Standard_ID (RxID cm) (len cm) in
  let body :=
    if Z.land (RxID cm) 0x40000000 =? 0x40000000
    then [Serial_print REMOTE_REQUEST_FRAME]
    else map (fun b => Serial_print (RX_Data b))
             (firstn (Z.to_nat (len cm)) (rxdata cm)) in
  let log := CAN_readMsgBuf :: Serial_print header :: body
             ++ [Serial_print Newline; LCD_setCursor 0 0] in
  let lcd := lcd_setCursor 0 0 lcd in
  if nth 0 (rxdata cm) 0 =? FLOOR1 h then
    (mkCANModule (uint16 (FLOOR1_SP h)) (txdata cm) (rxdata cm) (RxID cm) (len cm),
     lcd_print "Floor 1" lcd, log ++ [LCD_print "Floor 1"])
  else if nth 0 (rxdata cm) 0 =? FLOOR2 h then
    (mkCANModule (uint16 (FLOOR2_SP h)) (txdata cm) (rxdata cm) (RxID cm) (len cm),
     lcd_print "Floor 2" lcd, log ++ [LCD_print "Floor 2"])
  else if nth 0 (rxdata cm) 0 =? FLOOR3 h then
    (mkCANModule (uint16 (FLOOR3_SP h)) (txdata cm) (rxdata cm) (RxID cm) (len cm),
     lcd_print "Floor 3" lcd, log ++ [LCD_print "Floor 3"])
  else
    (cm, lcd, log).

(** ** ElevatorController *)

(** The initial settings of [setup] (the sub-module setups are in other
    files and touch none of the members below). *)
Definition setup (ec : ElevatorController) : ElevatorController * list event :=
  let cm := setTxdata (FLOOR1 h) (CM ec) in
  let lcd := lcd_print "Floor 1" (lcd_setCursor 0 0 (LCDM ec)) in
  let cm := setSetpoint (FLOOR1_SP h) cm in
  (mkElevatorController cm lcd (m_dist ec) 0 (a ec) false false,
   [LCD_setCursor 0 0; LCD_print "Floor 1"]).

(** The shaping [difference * A * exp((-1) * a * abs(difference))],
    assigned back to the [int] variable: the fractional part is dropped
    and the value is stored in 16 bits. *)
Definition damped (a : Q) (difference : Z) : Z :=
  int16 (Qtrunc (inject_Z difference * A h
                 * exp (inject_Z (-1) * a * inject_Z (abs difference)))%Q).

Definition Move (dist : Z) (setpoint : Z) (ec : ElevatorController)
  : ElevatorController * list event :=
  let sense := [Sensor_start; Sensor_getDistance dist; Delay 100; Sensor_stop] in
  let m_dist := dist in
  if (m_dist >? MINHEIGHT h) && (m_dist <? MAXHEIGHT h) then
    let difference := int16 (m_dist - setpoint) in
    let difference :=
      if abs difference <=? SETPOINT_TOLERANCE h then 0 else difference in
    let a := (inject_Z (DAMPENER h) / inject_Z (diffMax h))%Q in
    let difference := damped a difference in
    let difference := if difference >? 1023 then 1023 else difference in
    (mkElevatorController (CM ec) (LCD_loop_model m_dist (LCDM ec)) m_dist
                          (m_currentFloor ec) a (flagRecv ec) (flagTx ec),
     sense ++ [LCD_loop m_dist; DAC_transferDAC difference])
  else
    (mkElevatorController (CM ec) (LCDM ec) m_dist (m_currentFloor ec) (a ec)
                          (flagRecv ec) (flagTx ec),
     sense ++ [DAC_transferDAC 0]).

Definition checkCurrentFloor (ec : ElevatorController) : ElevatorController :=
  let set_floor f :=
    mkElevatorController (CM ec) (LCDM ec) (m_dist ec) f (a ec)
                         (flagRecv ec) (flagTx ec) in
  if (m_dist ec >=? FLOOR1_SP h - (SETPOINT_TOLERANCE h + 10))
     && (m_dist ec <=? FLOOR1_SP h + (SETPOINT_TOLERANCE h + 10)) then
    set_floor (FLOOR1 h)
  else if (m_dist ec >=? FLOOR2_SP h - (SETPOINT_TOLERANCE h + 10))
          && (m_dist ec <=? FLOOR2_SP h + (SETPOINT_TOLERANCE h + 10)) then
    set_floor (FLOOR2 h)
  else if (m_dist ec >=? FLOOR3_SP h - (SETPOINT_TOLERANCE h + 10))
          && (m_dist ec <=? FLOOR3_SP h + (SETPOINT_TOLERANCE h + 10)) then
    set_floor (FLOOR3 h)
  else
    ec.

(** The receive block of [loop]. *)
Definition loop_receive (i : Input) (ec : ElevatorController)
  : ElevatorController * list event :=
  if flagRecv ec then
    let '(cm, lcd, out) := receiveCAN (bus i) (CM ec) (LCDM ec) in
    (mkElevatorController cm lcd (m_dist ec) (m_currentFloor ec) (a ec)
                          false (flagTx ec), out)
  else (ec, []).

(** The transmit block of [loop]. *)
Definition loop_transmit (i : Input) (ec : ElevatorController)
  : ElevatorController * list event :=
  if flagTx ec then
    let cm := setTxdata (m_currentFloor ec) (CM ec) in
    (mkElevatorController cm (LCDM ec) (m_dist ec) (m_currentFloor ec) (a ec)
                          (flagRecv ec) false,
     transmitCAN (sndStat i) cm)
  else (ec, []).

Definition loop (i : Input) (ec : ElevatorController)
  : ElevatorController * list event :=
  let '(ec, rx) := loop_receive i ec in
  let '(ec, tx) := loop_transmit i ec in
  let '(ec, mv) := Move (distance i) (getSetpoint (CM ec)) ec in
  let ec := checkCurrentFloor ec in
  (ec, rx ++ tx ++ mv).

(** Modelled from the spec: the interrupt routines are not part of the
    sources; the event flag dispatcher says that the bus-message line and
    the timer tick each set a sticky boolean. *)
Definition signalReceivePending (ec : ElevatorController) : ElevatorController :=
  mkElevatorController (CM ec) (LCDM ec) (m_dist ec) (m_currentFloor ec) (a ec)
                       true (flagTx ec).

Definition signalTransmitPending (ec : ElevatorController) : ElevatorController :=
  mkElevatorController (CM ec) (LCDM ec) (m_dist ec) (m_currentFloor ec) (a ec)
                       (flagRecv ec) true.

(** The states the controller can be in: [setup] has run, and then any
    number of control cycles and interrupts. *)
Inductive reachable : ElevatorController -> Prop :=
| reach_setup : forall ec0, reachable (fst (setup ec0))
| reach_loop : forall i ec, reachable ec -> reachable (fst (loop i ec))
| reach_recv : forall ec, reachable ec -> reachable (signalReceivePending ec)
| reach_tick : forall ec, reachable ec -> reachable (signalTransmitPending ec).

End Controller.

(** ** Reading a list of events *)

(** The values written to the DAC, in order. *)
Fixpoint dac_of (t : list event) : list Z :=
  match t with
  | [] => []
  | DAC_transferDAC v :: t => v :: dac_of t
  | _ :: t => dac_of t
  end.

(** The payloads handed to the CAN controller for sending, in order. *)
Fixpoint sent_of (t : list event) : list (list Z) :=
  match t with
  | [] => []
  | CAN_sendMsgBuf _ _ _ data :: t => data :: sent_of t
  | _ :: t => sent_of t
  end.

(** The distances written to the display, in order. *)
Fixpoint shown_of (t : list event) : list Z :=
  match t with
  | [] => []
  | LCD_loop d :: t => d :: shown_of t
  | _ :: t => shown_of t
  end.

(** The three groups of actions of a control cycle. *)
Definition receive_event (e : event) : bool :=
  match e with
  | CAN_readMsgBuf | LCD_setCursor _ _ | LCD_print _ => true
  | Serial_print (RX_Extended_ID _ _) | Serial_print (RX_Standard_ID _ _)
  | Serial_print REMOTE_REQUEST_FRAME | Serial_print (RX_Data _)
  | Serial_print Newline => true
  | _ => false
  end.

Definition transmit_event (e : event) : bool :=
  match e with
  | CAN_sendMsgBuf _ _ _ _ => true
  | Serial_print (TX_Data _ _) | Serial_print TX_Error => true
  | _ => false
  end.

Definition motion_event (e : event) : bool :=
  match e with
  | Sensor_start | Sensor_getDistance _ | Sensor_stop | Delay _
  | LCD_loop _ | DAC_transferDAC _ => true
  | _ => false
  end.

(** ** The floor table of the design document *)

Inductive FloorCode : Type := Floor1 | Floor2 | Floor3.

Definition code_of (h : Header) (f : FloorCode) : Z :=
  match f with Floor1 => FLOOR1 h | Floor2 => FLOOR2 h | Floor3 => FLOOR3 h end.

Definition setpoint_of (h : Header) (f : FloorCode) : Z :=
  match f with
  | Floor1 => FLOOR1_SP h | Floor2 => FLOOR2_SP h | Floor3 => FLOOR3_SP h
  end.

Definition label_of (f : FloorCode) : string :=
  match f with
  | Floor1 => "Floor 1" | Floor2 => "Floor 2" | Floor3 => "Floor 3"
  end%string.

(** The margin that [checkCurrentFloor] adds to the tolerance. *)
Definition MARGIN : Z := 10.

(** The estimator as the design document words it: the first floor, in
    the order FLOOR1, FLOOR2, FLOOR3, whose band
    setpoint +/- (SETPOINT_TOLERANCE + MARGIN) holds the distance;
    the previous floor when there is none. *)
Definition in_band (h : Header) (distance : Z) (f : FloorCode) : bool :=
  (setpoint_of h f - (SETPOINT_TOLERANCE h + MARGIN) <=? distance)
  && (distance <=? setpoint_of h f + (SETPOINT_TOLERANCE h + MARGIN)).

Definition estimate (h : Header) (distance previousFloor : Z) : Z :=
  match find (in_band h distance) [Floor1; Floor2; Floor3] with
  | Some f => code_of h f
  | None => previousFloor
  end.

(** ** Two header settings and a power-on state *)

(** A rational function in the place of [exp]; it agrees with [exp] at 0,
    the only argument it is given when [DAMPENER] is 0. *)
Definition exp_at_0 (q : Q) : Q := (1 / (1 - q))%Q.

(** Floor bands inside the valid band of the sensor, damping off. *)
Definition bench : Header :=
  mkHeader 5 6 7 60 1000 2100 30 2200 5 1 0 2050 0x100 1.

(** As [bench], but the sensor's lower limit cuts into the band of floor 1
    (floor 1 itself is above MINHEIGHT, as [Move] asks for). *)
Definition bench_low : Header :=
  mkHeader 5 6 7 60 1000 2100 50 2200 5 1 0 2050 0x100 1.

Definition power_on : ElevatorController :=
  mkElevatorController (mkCANModule 0 [0;0;0;0;0;0;0;0] [0;0;0;0;0;0;0;0] 0 0)
                       (mkLCD (0, 0) "" None) 0 0 0 false false.

(** The controller after [setup], and after one more cycle with the car
    at floor 2. *)
Definition started : ElevatorController := fst (setup bench power_on).

Definition at_floor2 : ElevatorController :=
  fst (loop bench exp_at_0 (mkInput None true 1000) started).

Definition at_floor2_low : ElevatorController :=
  fst (loop bench_low exp_at_0 (mkInput None true 1000)
            (fst (setup bench_low power_on))).

(** Bus messages: a command for floor 2, an unknown command, a remote
    request whose data register holds the code of floor 2, and a remote
    request of length 0. *)
Definition floor2_frame : Frame := mkFrame 0x101 1 [6].
Definition unknown_frame : Frame := mkFrame 0x101 1 [0xFF].

(** ** Consecutive cycles *)

(** [loop] called again and again, as the Arduino core does, with no
    interrupt between the calls; the inputs are those of the successive
    cycles. *)
Fixpoint cycles (h : Header) (exp : Q -> Q) (inputs : list Input)
  (ec : ElevatorController) : ElevatorController * list event :=
  match inputs with
  | [] => (ec, [])
  | i :: inputs =>
      let '(ec, t) := loop h exp i ec in
      let '(ec, u) := cycles h exp inputs ec in
      (ec, t ++ u)
  end.

(** The value [Move] hands to [transferDAC] for a distance and a
    setpoint (it does not depend on the controller's members). *)
Definition driveCommand (h : Header) (exp : Q -> Q) (dist sp : Z) : Z :=
  hd 0 (dac_of (snd (Move h exp dist sp power_on))).

(** The distances read from the sensor, in order. *)
Fixpoint sensed_of (t : list event) : list Z :=
  match t with
  | [] => []
  | Sensor_getDistance d :: t => d :: sensed_of t
  | _ :: t => sensed_of t
  end.

(** How often the CAN controller was read. *)
Fixpoint reads_of (t : list event) : nat :=
  match t with
  | [] => 0%nat
  | CAN_readMsgBuf :: t => S (reads_of t)
  | _ :: t => reads_of t
  end.

(** ** ElevatorController::initializeTimer *)

(** The registers of timer 1 and the global interrupt enable. *)
Record Timer1 : Type := mkTimer1 {
  TCCR1A : Z;
  TCCR1B : Z;
  TCNT1 : Z;
  OCR1A : Z;
  TIMSK1 : Z;
  interrupts : bool
}.

(** Bit numbers of the AVR headers, as the comments of the code give
    them. *)
Definition WGM12 : Z := 3.
Definition CS12 : Z := 2.
Definition CS10 : Z := 0.
Definition OCIE1A : Z := 1.

Definition initializeTimer (t : Timer1) (ec : ElevatorController)
  : Timer1 * ElevatorController :=
  (* cli() *)
  let t := mkTimer1 (TCCR1A t) (TCCR1B t) (TCNT1 t) (OCR1A t) (TIMSK1 t) false in
  let t := mkTimer1 0 (TCCR1B t) (TCNT1 t) (OCR1A t) (TIMSK1 t) (interrupts t) in
  let t := mkTimer1 (TCCR1A t) 0 (TCNT1 t) (OCR1A t) (TIMSK1 t) (interrupts t) in
  let t := mkTimer1 (TCCR1A t) (TCCR1B t) 0 (OCR1A t) (TIMSK1 t) (interrupts t) in
  let t := mkTimer1 (TCCR1A t) (TCCR1B t) (TCNT1 t) 15624 (TIMSK1 t) (interrupts t) in
  let t := mkTimer1 (TCCR1A t) (Z.lor (TCCR1B t) (Z.shiftl 1 WGM12))
                    (TCNT1 t) (OCR1A t) (TIMSK1 t) (interrupts t) in
  let t := mkTimer1 (TCCR1A t)
                    (Z.lor (TCCR1B t)
                           (Z.lor (Z.shiftl 1 CS12) (Z.shiftl 1 CS10)))
                    (TCNT1 t) (OCR1A t) (TIMSK1 t) (interrupts t) in
  let t := mkTimer1 (TCCR1A t) (TCCR1B t) (TCNT1 t) (OCR1A t)
                    (Z.lor (TIMSK1 t) (Z.shiftl 1 OCIE1A)) (interrupts t) in
  (* sei() *)
  let t := mkTimer1 (TCCR1A t) (TCCR1B t) (TCNT1 t) (OCR1A t) (TIMSK1 t) true in
  (t, mkElevatorController (CM ec) (LCDM ec) (m_dist ec) (m_currentFloor ec)
                           (a ec) (flagRecv ec) false).

(** The two log lines of [transmitCAN]. *)
Definition logs_TX_Error (e : event) : bool :=
  match e with Serial_print TX_Error => true | _ => false end.

Definition logs_TX_Data (e : event) : bool :=
  match e with Serial_print (TX_Data _ _) => true | _ => false end.

(** The data bytes printed to the serial log, in order. *)
Fixpoint logged_of (t : list event) : list Z :=
  match t with
  | [] => []
  | Serial_print (RX_Data b) :: t => b :: logged_of t
  | _ :: t => logged_of t
  end.

(** A data frame of three bytes and a remote request of the same
    length. *)
Definition data_frame3 : Frame := mkFrame 0x101 3 [6; 17; 34].
Definition remote_frame3 : Frame := mkFrame 0x40000101 3 [6; 17; 34].

(** * Properties *)

(** ** Machine integers and the shaped value *)

Lemma int16_small (z : Z) : -32768 <= z < 32768 -> int16 z = z.
Proof.
  intros Hz. unfold int16.
  rewrite Z.mod_small by lia. lia.
Qed.

Lemma int16_range (z : Z) : -32768 <= int16 z < 32768.
Proof.
  unfold int16.
  pose proof (Z.mod_pos_bound (z + 32768) 65536 ltac:(lia)). lia.
Qed.

Lemma abs_small (z : Z) : -32768 < z < 32768 -> abs z = Z.abs z.
Proof.
  intros Hz. unfold abs.
  destruct (z >? 0) eqn:E.
  - apply Z.gtb_lt in E. lia.
  - assert (z <= 0) by (destruct (Z.gtb_spec z 0); [discriminate | lia]).
    rewrite int16_small by lia. lia.
Qed.

(** Whatever its argument, the macro never yields more than 32767. *)
Lemma abs_upper (z : Z) : -32768 <= z < 32768 -> abs z <= 32767.
Proof.
  intros Hz. unfold abs.
  destruct (z >? 0); [lia |].
  pose proof (int16_range (- z)). lia.
Qed.

(** Negation commutes with the conversion except at the least [int]. *)
Lemma int16_opp (z : Z) : int16 z <> -32768 -> int16 (- z) = - int16 z.
Proof.
  unfold int16. intros Hz.
  pose proof (Z.div_mod (z + 32768) 65536 ltac:(lia)) as Hdm.
  pose proof (Z.mod_pos_bound (z + 32768) 65536 ltac:(lia)) as Hb.
  set (m := (z + 32768) mod 65536) in *.
  set (q := (z + 32768) / 65536) in *.
  assert (Hm : (- z + 32768) mod 65536 = 65536 - m).
  { symmetry. apply (Z.mod_unique _ _ (- q)); lia. }
  rewrite Hm. lia.
Qed.

Lemma Qtrunc_opp (q : Q) : Qtrunc (- q) = - Qtrunc q.
Proof.
  unfold Qtrunc. destruct q as [n d]. simpl.
  apply Z.quot_opp_l. discriminate.
Qed.

Section Shaping.

Variable h : Header.
Variable exp : Q -> Q.

(** A zero difference is shaped to zero, whatever [A], [a] and [exp]. *)
Lemma damped_0 (a : Q) : damped h exp a 0 = 0.
Proof.
  unfold damped, Qtrunc. simpl.
  rewrite Z.quot_0_l by discriminate. reflexivity.
Qed.

(** The shaping is an odd function of the difference, the least [int]
    apart. *)
Lemma damped_opp (a : Q) (d : Z) :
  -32768 < d < 32768 ->
  damped h exp a d <> -32768 ->
  damped h exp a (- d) = - damped h exp a d.
Proof.
  intros Hd. unfold damped.
  rewrite (abs_small (- d)), (abs_small d) by lia.
  rewrite Z.abs_opp.
  set (e := exp _).
  intros Hmin.
  rewrite <- int16_opp by exact Hmin.
  f_equal.
  unfold Qtrunc. simpl.
  replace (- d * Qnum (A h) * Qnum e) with (- (d * Qnum (A h) * Qnum e)) by ring.
  apply Z.quot_opp_l. discriminate.
Qed.

(** The dead band of [Move], on the difference as [Move] computes it. *)
Lemma dead_band (dist sp : Z) :
  Z.abs (dist - sp) <= SETPOINT_TOLERANCE h ->
  (abs (int16 (dist - sp)) <=? SETPOINT_TOLERANCE h) = true.
Proof.
  intros Hd. apply Z.leb_le.
  destruct (Z_lt_le_dec (SETPOINT_TOLERANCE h) 32767) as [Hs | Hl].
  - rewrite int16_small by lia.
    rewrite abs_small by lia. exact Hd.
  - pose proof (abs_upper (int16 (dist - sp)) (int16_range _)). lia.
Qed.

(** [Move] writes to the DAC exactly once. *)
Lemma Move_one_write (dist sp : Z) (ec : ElevatorController) :
  exists v, dac_of (snd (Move h exp dist sp ec)) = [v].
Proof.
  unfold Move.
  destruct ((dist >? MINHEIGHT h) && (dist <? MAXHEIGHT h)); simpl; eauto.
Qed.

(** The actions of [Move] do not depend on the controller's members. *)
Lemma Move_events_state (dist sp : Z) (ec ec' : ElevatorController) :
  snd (Move h exp dist sp ec) = snd (Move h exp dist sp ec').
Proof.
  unfold Move.
  destruct ((dist >? MINHEIGHT h) && (dist <? MAXHEIGHT h)); reflexivity.
Qed.

(** The check before the DAC write bounds the command from above. *)
Lemma Move_upper_bound (dist sp : Z) (ec : ElevatorController) (v : Z) :
  In v (dac_of (snd (Move h exp dist sp ec))) -> v <= 1023.
Proof.
  unfold Move.
  destruct ((dist >? MINHEIGHT h) && (dist <? MAXHEIGHT h)); simpl.
  - intros [<- | []].
    destruct (Z.gtb_spec (damped h exp (inject_Z (DAMPENER h) / inject_Z (diffMax h))
                (if abs (int16 (dist - sp)) <=? SETPOINT_TOLERANCE h
                 then 0 else int16 (dist - sp))) 1023); lia.
  - intros [<- | []]. lia.
Qed.

(** There is no check on the other side: wherever the check caps the
    command for a difference [d], the command for the difference [- d]
    is written to the DAC as it is, below -1023. *)
Lemma Move_lower_unchecked (dist sp dist' sp' : Z) (ec ec' : ElevatorController) :
  let a0 := (inject_Z (DAMPENER h) / inject_Z (diffMax h))%Q in
  let d := dist - sp in
  MINHEIGHT h < dist < MAXHEIGHT h ->
  MINHEIGHT h < dist' < MAXHEIGHT h ->
  dist' - sp' = - d ->
  SETPOINT_TOLERANCE h < Z.abs d < 32768 ->
  1023 < damped h exp a0 d ->
  dac_of (snd (Move h exp dist sp ec)) = [1023]
  /\ dac_of (snd (Move h exp dist' sp' ec')) = [- damped h exp a0 d]
  /\ - damped h exp a0 d < -1023.
Proof.
  intros a0 d Hr Hr' Hm Hd Hc.
  assert (Hin : forall x, MINHEIGHT h < x < MAXHEIGHT h ->
                 (x >? MINHEIGHT h) && (x <? MAXHEIGHT h) = true).
  { intros x Hx. apply andb_true_iff. split.
    - apply Z.gtb_lt. lia.
    - apply Z.ltb_lt. lia. }
  assert (Hab : forall x, SETPOINT_TOLERANCE h < Z.abs x < 32768 ->
                 (abs (int16 x) <=? SETPOINT_TOLERANCE h) = false).
  { intros x Hx. apply Z.leb_gt.
    rewrite int16_small by lia. rewrite abs_small by lia. lia. }
  unfold Move. rewrite (Hin _ Hr), (Hin _ Hr'). simpl.
  rewrite Hm. fold d. fold a0.
  rewrite (Hab d Hd), (Hab (- d)) by (rewrite Z.abs_opp; exact Hd).
  rewrite !int16_small by lia.
  rewrite damped_opp by lia.
  destruct (Z.gtb_spec (damped h exp a0 d) 1023); [| lia].
  destruct (Z.gtb_spec (- damped h exp a0 d) 1023); [lia |].
  repeat split. lia.
Qed.

End Shaping.

(** ** The motion step *)

Section Motion.

Variable h : Header.
Variable exp : Q -> Q.

(** C5.  For every setpoint, [Move] commands the motor to 0 - one DAC
    write, of the value 0 - whenever the distance is out of range (not
    strictly between MINHEIGHT and MAXHEIGHT) and whenever the distance
    is within SETPOINT_TOLERANCE of the setpoint. *)
Theorem Move_stops (dist sp : Z) (ec : ElevatorController) :
  (dist <= MINHEIGHT h \/ MAXHEIGHT h <= dist)
  \/ Z.abs (dist - sp) <= SETPOINT_TOLERANCE h ->
  dac_of (snd (Move h exp dist sp ec)) = [0].
Proof.
  intros Hc. unfold Move.
  destruct ((dist >? MINHEIGHT h) && (dist <? MAXHEIGHT h)) eqn:Hin; simpl.
  - destruct Hc as [Hout | Hdead].
    + apply andb_true_iff in Hin. destruct Hin as [H1 H2].
      apply Z.gtb_lt in H1. apply Z.ltb_lt in H2. lia.
    + rewrite (dead_band h dist sp Hdead).
      rewrite damped_0. reflexivity.
  - reflexivity.
Qed.

(** C10.  A distance equal to MINHEIGHT or to MAXHEIGHT is out of range:
    for every setpoint the DAC is written with 0 and the distance is not
    put on the display, which is left as it was. *)
Theorem Move_at_limits (sp : Z) (ec : ElevatorController) :
  (dac_of (snd (Move h exp (MINHEIGHT h) sp ec)) = [0]
   /\ shown_of (snd (Move h exp (MINHEIGHT h) sp ec)) = []
   /\ LCDM (fst (Move h exp (MINHEIGHT h) sp ec)) = LCDM ec)
  /\
  (dac_of (snd (Move h exp (MAXHEIGHT h) sp ec)) = [0]
   /\ shown_of (snd (Move h exp (MAXHEIGHT h) sp ec)) = []
   /\ LCDM (fst (Move h exp (MAXHEIGHT h) sp ec)) = LCDM ec).
Proof.
  unfold Move. split.
  - rewrite Z.gtb_ltb, Z.ltb_irrefl.
    simpl. repeat split.
  - rewrite Z.ltb_irrefl, andb_false_r.
    simpl. repeat split.
Qed.

(** Strictly inside the band the distance is shown: the band is open at
    both ends and nowhere else. *)
Lemma Move_in_range_shown (dist sp : Z) (ec : ElevatorController) :
  MINHEIGHT h < dist < MAXHEIGHT h ->
  shown_of (snd (Move h exp dist sp ec)) = [dist]
  /\ shownDistance (LCDM (fst (Move h exp dist sp ec))) = Some dist.
Proof.
  intros [H1 H2]. unfold Move.
  replace (dist >? MINHEIGHT h) with true by (symmetry; apply Z.gtb_lt; lia).
  replace (dist <? MAXHEIGHT h) with true by (symmetry; apply Z.ltb_lt; lia).
  simpl. split; reflexivity.
Qed.

End Motion.

(** C5, at a concrete input: floor 1 approached to within 2 units. *)
Lemma Move_stops_witness :
  ((62 <= MINHEIGHT bench \/ MAXHEIGHT bench <= 62)
   \/ Z.abs (62 - 60) <= SETPOINT_TOLERANCE bench)
  /\ dac_of (snd (Move bench exp_at_0 62 60 power_on)) = [0].
Proof.
  split.
  - right. simpl. lia.
  - apply (Move_stops bench exp_at_0 62 60 power_on).
    right. simpl. lia.
Defined.

(** C1.  With the constants of [bench], a car at distance 100 (in range)
    sent to the setpoint 2100 is driven with -2000: the command leaves
    the DAC range on the negative side, while the mirrored move, from
    2100 to 100, is capped at 1023. *)
Theorem Move_negative_side_not_capped :
  MINHEIGHT bench < 100 < MAXHEIGHT bench
  /\ dac_of (snd (Move bench exp_at_0 100 2100 power_on)) = [-2000]
  /\ dac_of (snd (Move bench exp_at_0 2100 100 power_on)) = [1023].
Proof.
  split; [simpl; lia |].
  split; vm_compute; reflexivity.
Qed.

(** ** The current-floor estimator *)

(** [checkCurrentFloor] written with the reference estimator. *)
Lemma checkCurrentFloor_eq (h : Header) (ec : ElevatorController) :
  checkCurrentFloor h ec
  = mkElevatorController (CM ec) (LCDM ec) (m_dist ec)
                         (estimate h (m_dist ec) (m_currentFloor ec))
                         (a ec) (flagRecv ec) (flagTx ec).
Proof.
  unfold checkCurrentFloor, estimate, in_band, MARGIN. simpl.
  rewrite !Z.geb_leb.
  destruct ((FLOOR1_SP h - (SETPOINT_TOLERANCE h + 10) <=? m_dist ec)
            && (m_dist ec <=? FLOOR1_SP h + (SETPOINT_TOLERANCE h + 10)));
    [reflexivity |].
  destruct ((FLOOR2_SP h - (SETPOINT_TOLERANCE h + 10) <=? m_dist ec)
            && (m_dist ec <=? FLOOR2_SP h + (SETPOINT_TOLERANCE h + 10)));
    [reflexivity |].
  destruct ((FLOOR3_SP h - (SETPOINT_TOLERANCE h + 10) <=? m_dist ec)
            && (m_dist ec <=? FLOOR3_SP h + (SETPOINT_TOLERANCE h + 10)));
    [reflexivity |].
  destruct ec; reflexivity.
Qed.

(** C8.  The current-floor estimator of the code equals the reference
    definition: for every distance and every previous floor, the floor
    that [checkCurrentFloor] leaves in [m_currentFloor] is the one
    [estimate] returns (the first of FLOOR1, FLOOR2, FLOOR3 whose band
    holds the distance, the previous floor when none does), and no other
    member changes. *)
Theorem checkCurrentFloor_refines_estimate
  (h : Header) (cm : CANModule) (lcd : LCD) (distance previousFloor : Z)
  (a0 : Q) (fr ft : bool) :
  checkCurrentFloor h (mkElevatorController cm lcd distance previousFloor a0 fr ft)
  = mkElevatorController cm lcd distance
                         (estimate h distance previousFloor) a0 fr ft.
Proof.
  rewrite checkCurrentFloor_eq. reflexivity.
Qed.

(** The sticky-floor law: outside every band the previous floor stays,
    whatever it is. *)
Lemma estimate_sticky (h : Header) (distance previousFloor : Z) :
  (forall f, in_band h distance f = false) ->
  estimate h distance previousFloor = previousFloor.
Proof.
  intros Hn. unfold estimate. simpl.
  rewrite !Hn. reflexivity.
Qed.

(** Inside a band the estimate is a floor code and does not depend on
    the previous floor, so estimating again gives the same floor. *)
Lemma estimate_idempotent (h : Header) (distance previousFloor : Z) :
  estimate h distance (estimate h distance previousFloor)
  = estimate h distance previousFloor.
Proof.
  unfold estimate.
  destruct (find (in_band h distance) [Floor1; Floor2; Floor3]); reflexivity.
Qed.

Lemma estimate_cases (h : Header) (distance previousFloor : Z) :
  estimate h distance previousFloor = previousFloor
  \/ exists f, estimate h distance previousFloor = code_of h f.
Proof.
  unfold estimate.
  destruct (find (in_band h distance) [Floor1; Floor2; Floor3]) as [f |].
  - right. exists f. reflexivity.
  - left. reflexivity.
Qed.

(** ** Reading the actions of a cycle *)

Lemma dac_of_app (t u : list event) : dac_of (t ++ u) = dac_of t ++ dac_of u.
Proof.
  induction t as [| e t IH]; simpl; [reflexivity |].
  destruct e; simpl; rewrite IH; reflexivity.
Qed.

Lemma sent_of_app (t u : list event) : sent_of (t ++ u) = sent_of t ++ sent_of u.
Proof.
  induction t as [| e t IH]; simpl; [reflexivity |].
  destruct e; simpl; rewrite IH; reflexivity.
Qed.

Lemma receive_events_silent (t : list event) :
  forallb receive_event t = true -> dac_of t = [] /\ sent_of t = [].
Proof.
  induction t as [| e t IH]; simpl; [split; reflexivity |].
  intros Ht. apply andb_true_iff in Ht. destruct Ht as [He Ht].
  destruct e; simpl in *; try discriminate; auto.
Qed.

Lemma transmit_events_no_dac (t : list event) :
  forallb transmit_event t = true -> dac_of t = [].
Proof.
  induction t as [| e t IH]; simpl; [reflexivity |].
  intros Ht. apply andb_true_iff in Ht. destruct Ht as [He Ht].
  destruct e; simpl in *; try discriminate; auto.
Qed.

Lemma motion_events_no_send (t : list event) :
  forallb motion_event t = true -> sent_of t = [].
Proof.
  induction t as [| e t IH]; simpl; [reflexivity |].
  intros Ht. apply andb_true_iff in Ht. destruct Ht as [He Ht].
  destruct e; simpl in *; try discriminate; auto.
Qed.

(** ** The receive path *)

Section Receive.

Variable h : Header.

Lemma readMsgBuf_first (fr : Frame) (cm : CANModule) (b : Z) (rest : list Z) :
  1 <= frame_len fr -> frame_data fr = b :: rest ->
  nth 0 (rxdata (readMsgBuf (Some fr) cm)) 0 = b.
Proof.
  intros Hl Hd. simpl. rewrite Hd.
  destruct (Z.to_nat (frame_len fr)) as [| n] eqn:E; [lia |].
  reflexivity.
Qed.

Lemma readMsgBuf_keeps (f : option Frame) (cm : CANModule) :
  setpoint (readMsgBuf f cm) = setpoint cm
  /\ txdata (readMsgBuf f cm) = txdata cm.
Proof.
  destruct f; simpl; split; reflexivity.
Qed.

(** What [receiveCAN] does when the first byte of the receive buffer is
    the code of floor [k] and no earlier test of the chain takes it. *)
Lemma receiveCAN_floor (k : FloorCode) (f : option Frame) (cm : CANModule) (lcd : LCD) :
  FLOOR1 h <> FLOOR2 h -> FLOOR1 h <> FLOOR3 h -> FLOOR2 h <> FLOOR3 h ->
  nth 0 (rxdata (readMsgBuf f cm)) 0 = code_of h k ->
  fst (receiveCAN h f cm lcd)
  = (mkCANModule (uint16 (setpoint_of h k)) (txdata cm)
                 (rxdata (readMsgBuf f cm)) (RxID (readMsgBuf f cm))
                 (len (readMsgBuf f cm)),
     lcd_print (label_of k) (lcd_setCursor 0 0 lcd)).
Proof.
  intros H12 H13 H23 Hb.
  destruct (readMsgBuf_keeps f cm) as [_ Ht].
  unfold receiveCAN. cbv zeta. rewrite Hb, Ht.
  destruct k; simpl code_of; simpl setpoint_of; simpl label_of.
  - rewrite Z.eqb_refl. reflexivity.
  - destruct (Z.eqb_spec (FLOOR2 h) (FLOOR1 h)); [congruence |].
    rewrite Z.eqb_refl. reflexivity.
  - destruct (Z.eqb_spec (FLOOR3 h) (FLOOR1 h)); [congruence |].
    destruct (Z.eqb_spec (FLOOR3 h) (FLOOR2 h)); [congruence |].
    rewrite Z.eqb_refl. reflexivity.
Qed.

(** What [receiveCAN] does when that byte is no floor code: the message
    is stored and the cursor is moved, nothing else. *)
Lemma receiveCAN_unknown (f : option Frame) (cm : CANModule) (lcd : LCD) :
  nth 0 (rxdata (readMsgBuf f cm)) 0 <> FLOOR1 h ->
  nth 0 (rxdata (readMsgBuf f cm)) 0 <> FLOOR2 h ->
  nth 0 (rxdata (readMsgBuf f cm)) 0 <> FLOOR3 h ->
  fst (receiveCAN h f cm lcd) = (readMsgBuf f cm, lcd_setCursor 0 0 lcd).
Proof.
  intros H1 H2 H3. unfold receiveCAN. cbv zeta.
  destruct (Z.eqb_spec (nth 0 (rxdata (readMsgBuf f cm)) 0) (FLOOR1 h)); [contradiction |].
  destruct (Z.eqb_spec (nth 0 (rxdata (readMsgBuf f cm)) 0) (FLOOR2 h)); [contradiction |].
  destruct (Z.eqb_spec (nth 0 (rxdata (readMsgBuf f cm)) 0) (FLOOR3 h)); [contradiction |].
  reflexivity.
Qed.

(** [receiveCAN] never touches the transmit buffer. *)
Lemma receiveCAN_txdata (f : option Frame) (cm : CANModule) (lcd : LCD) :
  txdata (fst (fst (receiveCAN h f cm lcd))) = txdata cm.
Proof.
  destruct (readMsgBuf_keeps f cm) as [_ Ht].
  unfold receiveCAN. cbv zeta.
  destruct (_ =? FLOOR1 h); [simpl; exact Ht |].
  destruct (_ =? FLOOR2 h); [simpl; exact Ht |].
  destruct (_ =? FLOOR3 h); simpl; exact Ht.
Qed.

(** The setpoint after [receiveCAN] is the old one or a floor's. *)
Lemma receiveCAN_setpoint (f : option Frame) (cm : CANModule) (lcd : LCD) :
  setpoint (fst (fst (receiveCAN h f cm lcd))) = setpoint cm
  \/ exists k, setpoint (fst (fst (receiveCAN h f cm lcd))) = uint16 (setpoint_of h k).
Proof.
  destruct (readMsgBuf_keeps f cm) as [Hs _].
  unfold receiveCAN. cbv zeta.
  destruct (_ =? FLOOR1 h); [right; exists Floor1; reflexivity |].
  destruct (_ =? FLOOR2 h); [right; exists Floor2; reflexivity |].
  destruct (_ =? FLOOR3 h); [right; exists Floor3; reflexivity |].
  left. simpl. exact Hs.
Qed.

Lemma receiveCAN_events (f : option Frame) (cm : CANModule) (lcd : LCD) :
  forallb receive_event (snd (receiveCAN h f cm lcd)) = true
  /\ snd (receiveCAN h f cm lcd) <> [].
Proof.
  assert (Hmap : forall l, forallb receive_event
                   (map (fun b => Serial_print (RX_Data b)) l) = true).
  { induction l as [| b l IH]; simpl; auto. }
  unfold receiveCAN. cbv zeta.
  destruct (Z.land (RxID (readMsgBuf f cm)) 0x80000000 =? 0x80000000);
    destruct (Z.land (RxID (readMsgBuf f cm)) 0x40000000 =? 0x40000000);
    (destruct (_ =? FLOOR1 h);
      [| destruct (_ =? FLOOR2 h); [| destruct (_ =? FLOOR3 h)]]);
    simpl; rewrite ?forallb_app, ?Hmap; simpl;
    (split; [reflexivity | discriminate]).
Qed.

End Receive.

(** ** The control cycle *)

Section Cycle.

Variable h : Header.
Variable exp : Q -> Q.

(** [loop] as the sequence of its four steps. *)
Lemma loop_steps (i : Input) (ec : ElevatorController) :
  let r := loop_receive h i ec in
  let t := loop_transmit h i (fst r) in
  let m := Move h exp (distance i) (getSetpoint (CM (fst t))) (fst t) in
  loop h exp i ec = (checkCurrentFloor h (fst m), snd r ++ snd t ++ snd m).
Proof.
  cbv zeta. unfold loop.
  destruct (loop_receive h i ec) as [ec1 rx]. simpl.
  destruct (loop_transmit h i ec1) as [ec2 tx]. simpl.
  destruct (Move h exp (distance i) (getSetpoint (CM ec2)) ec2) as [ec3 mv].
  reflexivity.
Qed.

Lemma loop_receive_keeps (i : Input) (ec : ElevatorController) :
  m_dist (fst (loop_receive h i ec)) = m_dist ec
  /\ m_currentFloor (fst (loop_receive h i ec)) = m_currentFloor ec
  /\ flagTx (fst (loop_receive h i ec)) = flagTx ec
  /\ txdata (CM (fst (loop_receive h i ec))) = txdata (CM ec).
Proof.
  unfold loop_receive.
  destruct (flagRecv ec); [| repeat split].
  pose proof (receiveCAN_txdata h (bus i) (CM ec) (LCDM ec)) as Ht.
  destruct (receiveCAN h (bus i) (CM ec) (LCDM ec)) as [[cm lcd] out].
  simpl in *. repeat split. exact Ht.
Qed.

Lemma loop_receive_events (i : Input) (ec : ElevatorController) :
  forallb receive_event (snd (loop_receive h i ec)) = true
  /\ (if flagRecv ec then snd (loop_receive h i ec) <> []
      else snd (loop_receive h i ec) = []).
Proof.
  unfold loop_receive.
  destruct (flagRecv ec); [| split; reflexivity].
  pose proof (receiveCAN_events h (bus i) (CM ec) (LCDM ec)) as He.
  destruct (receiveCAN h (bus i) (CM ec) (LCDM ec)) as [[cm lcd] out].
  exact He.
Qed.

Lemma loop_transmit_keeps (i : Input) (ec : ElevatorController) :
  setpoint (CM (fst (loop_transmit h i ec))) = setpoint (CM ec)
  /\ LCDM (fst (loop_transmit h i ec)) = LCDM ec
  /\ m_dist (fst (loop_transmit h i ec)) = m_dist ec
  /\ m_currentFloor (fst (loop_transmit h i ec)) = m_currentFloor ec.
Proof.
  unfold loop_transmit.
  destruct (flagTx ec); simpl; repeat split.
Qed.

Lemma loop_transmit_events (i : Input) (ec : ElevatorController) :
  forallb transmit_event (snd (loop_transmit h i ec)) = true
  /\ (if flagTx ec then snd (loop_transmit h i ec) <> []
      else snd (loop_transmit h i ec) = [])
  /\ sent_of (snd (loop_transmit h i ec))
     = (if flagTx ec
        then [firstn (Z.to_nat (DLC h))
                     (byte (m_currentFloor ec) :: tl (txdata (CM ec)))]
        else []).
Proof.
  unfold loop_transmit.
  destruct (flagTx ec); simpl.
  - destruct (sndStat i); simpl; repeat split; discriminate.
  - repeat split.
Qed.

Lemma Move_keeps (dist sp : Z) (ec : ElevatorController) :
  CM (fst (Move h exp dist sp ec)) = CM ec
  /\ floorLabel (LCDM (fst (Move h exp dist sp ec))) = floorLabel (LCDM ec)
  /\ m_dist (fst (Move h exp dist sp ec)) = dist
  /\ m_currentFloor (fst (Move h exp dist sp ec)) = m_currentFloor ec.
Proof.
  unfold Move.
  destruct ((dist >? MINHEIGHT h) && (dist <? MAXHEIGHT h)); simpl; repeat split.
Qed.

Lemma Move_events (dist sp : Z) (ec : ElevatorController) :
  forallb motion_event (snd (Move h exp dist sp ec)) = true
  /\ snd (Move h exp dist sp ec) <> [].
Proof.
  unfold Move.
  destruct ((dist >? MINHEIGHT h) && (dist <? MAXHEIGHT h)); simpl;
    (split; [reflexivity | discriminate]).
Qed.

(** The state after a cycle, member by member. *)
Lemma loop_state (i : Input) (ec : ElevatorController) :
  setpoint (CM (fst (loop h exp i ec)))
  = setpoint (CM (fst (loop_receive h i ec)))
  /\ floorLabel (LCDM (fst (loop h exp i ec)))
     = floorLabel (LCDM (fst (loop_receive h i ec)))
  /\ m_dist (fst (loop h exp i ec)) = distance i
  /\ m_currentFloor (fst (loop h exp i ec))
     = estimate h (distance i) (m_currentFloor ec).
Proof.
  pose proof (loop_steps i ec) as Hl. cbv zeta in Hl. rewrite Hl. clear Hl.
  set (ec1 := fst (loop_receive h i ec)).
  set (ec2 := fst (loop_transmit h i ec1)).
  destruct (loop_receive_keeps i ec) as (_ & Hf1 & _ & _). fold ec1 in Hf1.
  destruct (loop_transmit_keeps i ec1) as (Hs2 & Hl2 & _ & Hf2).
  fold ec2 in Hs2, Hl2, Hf2.
  destruct (Move_keeps (distance i) (getSetpoint (CM ec2)) ec2)
    as (Hc3 & Hl3 & Hd3 & Hf3).
  simpl fst. rewrite checkCurrentFloor_eq. simpl.
  rewrite Hc3, Hl3, Hd3, Hf3, Hs2, Hl2, Hf2, Hf1.
  repeat split.
Qed.

(** The DAC writes and the CAN payloads of a cycle. *)
Lemma loop_outputs (i : Input) (ec : ElevatorController) :
  dac_of (snd (loop h exp i ec))
  = dac_of (snd (Move h exp (distance i)
                      (setpoint (CM (fst (loop_receive h i ec)))) ec))
  /\ sent_of (snd (loop h exp i ec))
     = (if flagTx ec
        then [firstn (Z.to_nat (DLC h))
                     (byte (m_currentFloor ec) :: tl (txdata (CM ec)))]
        else []).
Proof.
  pose proof (loop_steps i ec) as Hl. cbv zeta in Hl. rewrite Hl. clear Hl.
  set (ec1 := fst (loop_receive h i ec)).
  set (ec2 := fst (loop_transmit h i ec1)).
  destruct (loop_receive_keeps i ec) as (_ & Hf1 & Hx1 & Ht1).
  fold ec1 in Hf1, Hx1, Ht1.
  destruct (loop_receive_events i ec) as (Hr & _).
  destruct (receive_events_silent _ Hr) as (Hrd & Hrs).
  destruct (loop_transmit_keeps i ec1) as (Hs2 & _). fold ec2 in Hs2.
  destruct (loop_transmit_events i ec1) as (Ht & _ & Hts).
  destruct (Move_events (distance i) (getSetpoint (CM ec2)) ec2) as (Hm & _).
  simpl snd. rewrite !dac_of_app, !sent_of_app.
  rewrite Hrd, Hrs, (transmit_events_no_dac _ Ht), (motion_events_no_send _ Hm).
  rewrite Hts, Hx1, Hf1, Ht1. simpl.
  unfold getSetpoint. rewrite Hs2.
  rewrite (Move_events_state h exp _ _ ec2 ec), app_nil_r.
  split; reflexivity.
Qed.

End Cycle.

(** ** Floor commands *)

Section Commands.

Variable h : Header.
Variable exp : Q -> Q.

(** The value [Move] writes to the DAC, from the distance and the
    setpoint. *)
Lemma Move_written_value (dist sp : Z) (ec : ElevatorController) :
  dac_of (snd (Move h exp dist sp ec))
  = [ if (dist >? MINHEIGHT h) && (dist <? MAXHEIGHT h)
      then
        let difference := int16 (dist - sp) in
        let difference :=
          if abs difference <=? SETPOINT_TOLERANCE h then 0 else difference in
        let shaped :=
          int16 (Qtrunc (inject_Z difference * A h
                         * exp (inject_Z (-1)
                                * (inject_Z (DAMPENER h) / inject_Z (diffMax h))
                                * inject_Z (abs difference)))%Q) in
        if shaped >? 1023 then 1023 else shaped
      else 0 ].
Proof.
  unfold Move, damped.
  destruct ((dist >? MINHEIGHT h) && (dist <? MAXHEIGHT h)); reflexivity.
Qed.

(** C6.  A received payload whose first byte is the code of floor [f]
    sets the setpoint to that floor's setpoint and makes receive servicing
    print that floor's label at the top left of the display, and the
    motion step of the same cycle computes its difference relative to the
    new setpoint: the one value written to the DAC is 0 out of range, and
    in range it is the difference distance - setpoint of [f], taken as a
    16-bit [int], set to 0 inside the dead band, shaped, stored as [int]
    and capped at 1023. *)
Theorem loop_floor_command
  (f : FloorCode) (fr : Frame) (rest : list Z) (i : Input)
  (ec : ElevatorController) :
  FLOOR1 h <> FLOOR2 h -> FLOOR1 h <> FLOOR3 h -> FLOOR2 h <> FLOOR3 h ->
  0 <= setpoint_of h f < 65536 ->
  flagRecv ec = true ->
  bus i = Some fr ->
  1 <= frame_len fr ->
  frame_data fr = code_of h f :: rest ->
  setpoint (CM (fst (loop h exp i ec))) = setpoint_of h f
  /\ floorLabel (LCDM (fst (loop_receive h i ec))) = label_of f
  /\ dac_of (snd (loop h exp i ec))
     = [ if (distance i >? MINHEIGHT h) && (distance i <? MAXHEIGHT h)
         then
           let difference := int16 (distance i - setpoint_of h f) in
           let difference :=
             if abs difference <=? SETPOINT_TOLERANCE h then 0 else difference in
           let shaped :=
             int16 (Qtrunc (inject_Z difference * A h
                            * exp (inject_Z (-1)
                                   * (inject_Z (DAMPENER h) / inject_Z (diffMax h))
                                   * inject_Z (abs difference)))%Q) in
           if shaped >? 1023 then 1023 else shaped
         else 0 ].
Proof.
  intros H12 H13 H23 Hsp Hflag Hbus Hlen Hdata.
  destruct (loop_state h exp i ec) as (Hs & _).
  destruct (loop_outputs h exp i ec) as (Hd & _).
  rewrite <- (Move_written_value (distance i) (setpoint_of h f) ec).
  rewrite Hs, Hd.
  assert (Hr : fst (loop_receive h i ec)
               = mkElevatorController
                   (fst (fst (receiveCAN h (bus i) (CM ec) (LCDM ec))))
                   (snd (fst (receiveCAN h (bus i) (CM ec) (LCDM ec))))
                   (m_dist ec) (m_currentFloor ec) (a ec) false (flagTx ec)).
  { unfold loop_receive. rewrite Hflag.
    destruct (receiveCAN h (bus i) (CM ec) (LCDM ec)) as [[cm lcd] out].
    reflexivity. }
  rewrite Hr. simpl.
  rewrite (receiveCAN_floor h f (bus i) (CM ec) (LCDM ec) H12 H13 H23)
    by (rewrite Hbus; apply (readMsgBuf_first fr (CM ec) _ rest Hlen Hdata)).
  simpl.
  assert (Hu : uint16 (setpoint_of h f) = setpoint_of h f)
    by (unfold uint16; apply Z.mod_small; exact Hsp).
  rewrite Hu. repeat split.
Qed.

(** C7.  A received payload whose first byte is none of the three floor
    codes leaves the setpoint, the floor label and the distance on the
    display, and the current floor as they were. *)
Theorem loop_receive_unknown_command
  (fr : Frame) (b : Z) (rest : list Z) (i : Input) (ec : ElevatorController) :
  flagRecv ec = true ->
  bus i = Some fr ->
  1 <= frame_len fr ->
  frame_data fr = b :: rest ->
  b <> FLOOR1 h -> b <> FLOOR2 h -> b <> FLOOR3 h ->
  setpoint (CM (fst (loop_receive h i ec))) = setpoint (CM ec)
  /\ floorLabel (LCDM (fst (loop_receive h i ec))) = floorLabel (LCDM ec)
  /\ shownDistance (LCDM (fst (loop_receive h i ec))) = shownDistance (LCDM ec)
  /\ m_currentFloor (fst (loop_receive h i ec)) = m_currentFloor ec.
Proof.
  intros Hflag Hbus Hlen Hdata H1 H2 H3.
  pose proof (readMsgBuf_first fr (CM ec) b rest Hlen Hdata) as Hb.
  pose proof (receiveCAN_unknown h (bus i) (CM ec) (LCDM ec)) as Hu.
  rewrite Hbus in Hu. rewrite Hb in Hu. specialize (Hu H1 H2 H3).
  unfold loop_receive. rewrite Hflag, Hbus.
  destruct (receiveCAN h (Some fr) (CM ec) (LCDM ec)) as [[cm lcd] out].
  simpl in Hu. injection Hu as -> ->.
  simpl. repeat split.
Qed.


(** The remote-request marker has no part in the choice of the setpoint:
    two frames that differ in their identifiers only leave the same
    setpoint and the same display. *)
Lemma receiveCAN_identifier_blind
  (id id' n : Z) (data : list Z) (cm : CANModule) (lcd : LCD) :
  setpoint (fst (fst (receiveCAN h (Some (mkFrame id n data)) cm lcd)))
  = setpoint (fst (fst (receiveCAN h (Some (mkFrame id' n data)) cm lcd)))
  /\ snd (fst (receiveCAN h (Some (mkFrame id n data)) cm lcd))
     = snd (fst (receiveCAN h (Some (mkFrame id' n data)) cm lcd)).
Proof.
  unfold receiveCAN. cbv zeta. simpl.
  destruct (_ =? FLOOR1 h); [split; reflexivity |].
  destruct (_ =? FLOOR2 h); [split; reflexivity |].
  destruct (_ =? FLOOR3 h); split; reflexivity.
Qed.


(** C4, as the code has it.  When the band of every floor lies strictly
    between MINHEIGHT and MAXHEIGHT, a cycle whose distance is out of
    range leaves the current floor as it was. *)
Theorem loop_out_of_range_keeps_floor (i : Input) (ec : ElevatorController) :
  (forall f, MINHEIGHT h < setpoint_of h f - (SETPOINT_TOLERANCE h + MARGIN)
             /\ setpoint_of h f + (SETPOINT_TOLERANCE h + MARGIN) < MAXHEIGHT h) ->
  distance i <= MINHEIGHT h \/ MAXHEIGHT h <= distance i ->
  m_currentFloor (fst (loop h exp i ec)) = m_currentFloor ec.
Proof.
  intros Hbands Hout.
  destruct (loop_state h exp i ec) as (_ & _ & _ & Hf).
  rewrite Hf. apply estimate_sticky.
  intros f. specialize (Hbands f). unfold in_band.
  apply andb_false_iff.
  destruct Hout as [Hlo | Hhi].
  - left. apply Z.leb_gt. lia.
  - right. apply Z.leb_gt. lia.
Qed.

(** ** Reachable states *)

(** After [setup] the setpoint is always the setpoint of one of the
    three floors, as the 16-bit member holds it. *)
Lemma reachable_setpoint (ec : ElevatorController) :
  reachable h exp ec ->
  exists f, setpoint (CM ec) = uint16 (setpoint_of h f).
Proof.
  induction 1 as [ec0 | i ec Hr IH | ec Hr IH | ec Hr IH].
  - exists Floor1. reflexivity.
  - destruct (loop_state h exp i ec) as (Hs & _). rewrite Hs.
    unfold loop_receive. destruct (flagRecv ec); [| exact IH].
    destruct (receiveCAN_setpoint h (bus i) (CM ec) (LCDM ec)) as [He | He];
      destruct (receiveCAN h (bus i) (CM ec) (LCDM ec)) as [[cm lcd] out];
      simpl in *.
    + rewrite He. exact IH.
    + exact He.
  - exact IH.
  - exact IH.
Qed.

(** The current floor is 0, as [setup] leaves it, or a floor code. *)
Lemma reachable_currentFloor (ec : ElevatorController) :
  reachable h exp ec ->
  m_currentFloor ec = 0 \/ exists f, m_currentFloor ec = code_of h f.
Proof.
  induction 1 as [ec0 | i ec Hr IH | ec Hr IH | ec Hr IH].
  - left. reflexivity.
  - destruct (loop_state h exp i ec) as (_ & _ & _ & Hf). rewrite Hf.
    destruct (estimate_cases h (distance i) (m_currentFloor ec)) as [He | He].
    + rewrite He. exact IH.
    + right. exact He.
  - exact IH.
  - exact IH.
Qed.

(** Once a floor has been estimated the current floor is never 0 again,
    provided 0 is not itself a floor code. *)
Lemma classified_stays (i : Input) (ec : ElevatorController) :
  (forall f, code_of h f <> 0) ->
  m_currentFloor ec <> 0 ->
  m_currentFloor (fst (loop h exp i ec)) <> 0.
Proof.
  intros Hc Hn.
  destruct (loop_state h exp i ec) as (_ & _ & _ & Hf). rewrite Hf.
  destruct (estimate_cases h (distance i) (m_currentFloor ec)) as [He | [f He]];
    rewrite He; [exact Hn | apply Hc].
Qed.

(** C3, as the code has it.  With a one-byte data length and floor codes
    that fit a byte, every payload that a cycle sends from a reachable
    state is the single byte held in [m_currentFloor], and that byte is
    either 0 - the value [setup] gives to the unknown floor - or one of
    the three floor codes. *)
Theorem reachable_transmit (i : Input) (ec : ElevatorController) (p : list Z) :
  reachable h exp ec ->
  DLC h = 1 ->
  (forall f, 0 <= code_of h f < 256) ->
  In p (sent_of (snd (loop h exp i ec))) ->
  flagTx ec = true
  /\ p = [m_currentFloor ec]
  /\ (m_currentFloor ec = 0 \/ exists f, m_currentFloor ec = code_of h f).
Proof.
  intros Hr Hd Hb Hp.
  destruct (loop_outputs h exp i ec) as (_ & Hs). rewrite Hs in Hp.
  pose proof (reachable_currentFloor ec Hr) as Hf.
  destruct (flagTx ec); [| contradiction].
  destruct Hp as [<- | []].
  rewrite Hd. simpl.
  assert (Hbyte : byte (m_currentFloor ec) = m_currentFloor ec).
  { unfold byte. apply Z.mod_small.
    destruct Hf as [-> | [f ->]]; [lia | apply Hb]. }
  rewrite Hbyte. auto.
Qed.

(** The first transmission after [setup], when no cycle has estimated a
    floor yet or the car has been between floors since, carries 0. *)
Lemma unclassified_transmit (i : Input) (ec : ElevatorController) :
  m_currentFloor ec = 0 ->
  flagTx ec = true ->
  sent_of (snd (loop h exp i ec))
  = [firstn (Z.to_nat (DLC h)) (0 :: tl (txdata (CM ec)))].
Proof.
  intros Hf Ht.
  destruct (loop_outputs h exp i ec) as (_ & Hs).
  rewrite Hs, Ht, Hf. reflexivity.
Qed.

End Commands.

(** ** Concrete runs *)

(** C6, at a concrete input: the command for floor 2 arrives while the
    car stands at 500 with the setpoint of floor 1; with the damping of
    [bench] off the command is the difference to the new setpoint. *)
Lemma loop_floor_command_witness :
  flagRecv (signalReceivePending started) = true
  /\ frame_data floor2_frame = code_of bench Floor2 :: []
  /\ setpoint (CM (signalReceivePending started)) = 60
  /\ setpoint (CM (fst (loop bench exp_at_0 (mkInput (Some floor2_frame) true 500)
                             (signalReceivePending started)))) = 1000
  /\ floorLabel (LCDM (fst (loop_receive bench
                                         (mkInput (Some floor2_frame) true 500)
                                         (signalReceivePending started))))
     = "Floor 2"%string
  /\ dac_of (snd (loop bench exp_at_0 (mkInput (Some floor2_frame) true 500)
                       (signalReceivePending started)))
     = [500 - 1000].
Proof.
  split; [reflexivity |].
  split; [reflexivity |].
  split; [reflexivity |].
  apply (loop_floor_command bench exp_at_0 Floor2 floor2_frame []
           (mkInput (Some floor2_frame) true 500) (signalReceivePending started)).
  - simpl. lia.
  - simpl. lia.
  - simpl. lia.
  - simpl. lia.
  - reflexivity.
  - reflexivity.
  - simpl. lia.
  - reflexivity.
Defined.

(** C7, at a concrete input: the payload 0xFF. *)
Lemma loop_receive_unknown_command_witness :
  setpoint (CM (fst (loop_receive bench (mkInput (Some unknown_frame) true 500)
                                  (signalReceivePending started))))
  = setpoint (CM (signalReceivePending started))
  /\ floorLabel (LCDM (fst (loop_receive bench
                                         (mkInput (Some unknown_frame) true 500)
                                         (signalReceivePending started))))
     = floorLabel (LCDM (signalReceivePending started))
  /\ shownDistance (LCDM (fst (loop_receive bench
                                            (mkInput (Some unknown_frame) true 500)
                                            (signalReceivePending started))))
     = shownDistance (LCDM (signalReceivePending started))
  /\ m_currentFloor (fst (loop_receive bench
                                       (mkInput (Some unknown_frame) true 500)
                                       (signalReceivePending started)))
     = m_currentFloor (signalReceivePending started).
Proof.
  apply (loop_receive_unknown_command bench unknown_frame 0xFF []
           (mkInput (Some unknown_frame) true 500) (signalReceivePending started)).
  - reflexivity.
  - reflexivity.
  - simpl. lia.
  - reflexivity.
  - simpl. lia.
  - simpl. lia.
  - simpl. lia.
Defined.



(** C4 fails as stated: with the constants of [bench_low], the distance
    48 is below MINHEIGHT, the motor is stopped, and yet the cycle moves
    the current floor from floor 2 to floor 1. *)
Lemma out_of_range_sample_reclassifies :
  reachable bench_low exp_at_0 at_floor2_low
  /\ 48 < MINHEIGHT bench_low
  /\ MINHEIGHT bench_low < FLOOR1_SP bench_low
  /\ m_currentFloor at_floor2_low = FLOOR2 bench_low
  /\ dac_of (snd (loop bench_low exp_at_0 (mkInput None true 48) at_floor2_low))
     = [0]
  /\ m_currentFloor (fst (loop bench_low exp_at_0 (mkInput None true 48)
                               at_floor2_low))
     = FLOOR1 bench_low
  /\ m_currentFloor (fst (loop bench_low exp_at_0 (mkInput None true 48)
                               at_floor2_low))
     <> m_currentFloor at_floor2_low.
Proof.
  split; [apply reach_loop, reach_setup |].
  split; [simpl; lia |].
  split; [simpl; lia |].
  repeat split; try reflexivity.
  vm_compute. discriminate.
Qed.

(** C4 as the code has it, at a concrete input: with the constants of
    [bench] the distance 20 is below MINHEIGHT and the car stays at
    floor 2. *)
Lemma loop_out_of_range_keeps_floor_witness :
  distance (mkInput None true 20) <= MINHEIGHT bench
  /\ m_currentFloor at_floor2 = FLOOR2 bench
  /\ m_currentFloor (fst (loop bench exp_at_0 (mkInput None true 20) at_floor2))
     = m_currentFloor at_floor2.
Proof.
  split; [simpl; lia |].
  split; [reflexivity |].
  apply (loop_out_of_range_keeps_floor bench exp_at_0
           (mkInput None true 20) at_floor2).
  - intros f. destruct f; simpl; lia.
  - left. simpl. lia.
Defined.

(** C3 fails as stated: after [setup] and one timer tick, the next cycle
    sends the payload 0 - the current floor is still unknown - and 0 is
    none of the floor codes of [bench]. *)
Lemma first_transmit_is_no_floor_code :
  reachable bench exp_at_0 (signalTransmitPending started)
  /\ sent_of (snd (loop bench exp_at_0 (mkInput None true 500)
                        (signalTransmitPending started))) = [[0]]
  /\ m_currentFloor (fst (loop bench exp_at_0 (mkInput None true 500)
                               (signalTransmitPending started))) = 0
  /\ 0 <> FLOOR1 bench /\ 0 <> FLOOR2 bench /\ 0 <> FLOOR3 bench.
Proof.
  split; [apply reach_tick, reach_setup |].
  split; [reflexivity |].
  split; [reflexivity |].
  repeat split; simpl; lia.
Qed.

(** C3 as the code has it, at a concrete input: the timer ticks while the
    car is known to be at floor 2. *)
Lemma reachable_transmit_witness :
  reachable bench exp_at_0 (signalTransmitPending at_floor2)
  /\ DLC bench = 1
  /\ In [6] (sent_of (snd (loop bench exp_at_0 (mkInput None true 1000)
                                (signalTransmitPending at_floor2))))
  /\ flagTx (signalTransmitPending at_floor2) = true
  /\ [6] = [m_currentFloor (signalTransmitPending at_floor2)]
  /\ (m_currentFloor (signalTransmitPending at_floor2) = 0
      \/ exists f, m_currentFloor (signalTransmitPending at_floor2)
                   = code_of bench f).
Proof.
  assert (Hr : reachable bench exp_at_0 (signalTransmitPending at_floor2))
    by (apply reach_tick, reach_loop, reach_setup).
  assert (Hin : In [6] (sent_of (snd (loop bench exp_at_0 (mkInput None true 1000)
                                           (signalTransmitPending at_floor2)))))
    by (left; reflexivity).
  split; [exact Hr |].
  split; [reflexivity |].
  split; [exact Hin |].
  apply (reachable_transmit bench exp_at_0 (mkInput None true 1000)
           (signalTransmitPending at_floor2) [6] Hr).
  - reflexivity.
  - intros f. destruct f; simpl; lia.
  - exact Hin.
Defined.

(** * Further properties of the code *)

(** ** The motion step, continued *)

Lemma Qtrunc_nonneg (q : Q) : 0 <= Qnum q -> 0 <= Qtrunc q.
Proof.
  intros Hq. unfold Qtrunc. apply Z.quot_pos; [exact Hq | reflexivity].
Qed.

Lemma Qtrunc_nonpos (q : Q) : Qnum q <= 0 -> Qtrunc q <= 0.
Proof.
  intros Hq. unfold Qtrunc.
  replace (Qnum q) with (- (- Qnum q)) by lia.
  rewrite Z.quot_opp_l by discriminate.
  assert (0 <= Z.quot (- Qnum q) (Zpos (Qden q)))
    by (apply Z.quot_pos; [lia | reflexivity]).
  lia.
Qed.

Section MotionMore.

Variable h : Header.
Variable exp : Q -> Q.

(** X1.  Whatever the distance, the setpoint and the constants, no value
    above 1023 reaches the DAC: neither from [Move] alone nor from a
    whole control cycle. *)
Theorem DAC_never_above_1023 (dist sp : Z) (i : Input) (ec : ElevatorController) :
  Forall (fun v => v <= 1023) (dac_of (snd (Move h exp dist sp ec)))
  /\ Forall (fun v => v <= 1023) (dac_of (snd (loop h exp i ec))).
Proof.
  split.
  - apply Forall_forall. intros v Hv.
    exact (Move_upper_bound h exp dist sp ec v Hv).
  - destruct (loop_outputs h exp i ec) as (Hd & _). rewrite Hd.
    apply Forall_forall. intros v Hv.
    exact (Move_upper_bound h exp _ _ ec v Hv).
Qed.

(** X2.  The check before the DAC write is one-sided.  Take two in-range
    situations with opposite differences [d] and [- d], outside the dead
    band and within the range of [int]: if the shaped value for [d]
    exceeds 1023, the first command is capped at 1023 while the second is
    written uncapped, below -1023. *)
Theorem Move_cap_is_one_sided
  (dist sp dist' sp' : Z) (ec ec' : ElevatorController) :
  MINHEIGHT h < dist < MAXHEIGHT h ->
  MINHEIGHT h < dist' < MAXHEIGHT h ->
  dist' - sp' = - (dist - sp) ->
  SETPOINT_TOLERANCE h < Z.abs (dist - sp) < 32768 ->
  1023 < damped h exp (inject_Z (DAMPENER h) / inject_Z (diffMax h)) (dist - sp) ->
  dac_of (snd (Move h exp dist sp ec)) = [1023]
  /\ exists v, dac_of (snd (Move h exp dist' sp' ec')) = [v] /\ v < -1023.
Proof.
  intros Hr Hr' Hm Hd Hc.
  destruct (Move_lower_unchecked h exp dist sp dist' sp' ec ec' Hr Hr' Hm Hd Hc)
    as (H1 & H2 & H3).
  split; [exact H1 |].
  eexists. split; [exact H2 | exact H3].
Qed.

(** X3.  When [A] and the exponential factor are not negative and the
    shaped value fits the 16-bit [int] it is stored in, the command never
    points against the difference: for a car above the setpoint it is
    between 0 and 1023, for a car below it is at most 0.  The difference
    is taken within the range of [int]. *)
Theorem Move_command_follows_difference
  (dist sp : Z) (ec : ElevatorController) :
  -32768 < dist - sp < 32768 ->
  (0 <= A h)%Q ->
  (0 <= exp (inject_Z (-1)
             * (inject_Z (DAMPENER h) / inject_Z (diffMax h))
             * inject_Z (Z.abs (dist - sp))))%Q ->
  -32768 <= Qtrunc (inject_Z (dist - sp) * A h
                    * exp (inject_Z (-1)
                           * (inject_Z (DAMPENER h) / inject_Z (diffMax h))
                           * inject_Z (Z.abs (dist - sp))))%Q < 32768 ->
  exists v, dac_of (snd (Move h exp dist sp ec)) = [v]
            /\ 0 <= v * (dist - sp) /\ v <= 1023.
Proof.
  intros Hd HA He Hfit.
  unfold Move.
  destruct ((dist >? MINHEIGHT h) && (dist <? MAXHEIGHT h)); simpl;
    [| exists 0; repeat split; lia].
  rewrite int16_small by lia.
  destruct (abs (dist - sp) <=? SETPOINT_TOLERANCE h).
  - rewrite damped_0. simpl. exists 0. repeat split; lia.
  - set (a0 := (inject_Z (DAMPENER h) / inject_Z (diffMax h))%Q) in *.
    assert (HA' : 0 <= Qnum (A h)) by (unfold Qle in HA; simpl in HA; lia).
    assert (Hab : abs (dist - sp) = Z.abs (dist - sp)) by (apply abs_small; lia).
    set (e := exp _) in *.
    assert (He' : 0 <= Qnum e) by (unfold Qle in He; simpl in He; lia).
    assert (Hn : 0 <= Qnum (A h) * Qnum e) by (apply Z.mul_nonneg_nonneg; assumption).
    assert (Hs : (0 <= dist - sp -> 0 <= damped h exp a0 (dist - sp))
                 /\ (dist - sp <= 0 -> damped h exp a0 (dist - sp) <= 0)).
    { unfold damped. rewrite Hab. fold e.
      rewrite int16_small by exact Hfit.
      split; intros Hsgn.
      - apply Qtrunc_nonneg. simpl. nia.
      - apply Qtrunc_nonpos. simpl. nia. }
    destruct Hs as (Hp & Hm).
    destruct (Z.gtb_spec (damped h exp a0 (dist - sp)) 1023) as [Hgt | Hle].
    + exists 1023. repeat split; [| lia].
      destruct (Z_le_gt_dec 0 (dist - sp)); [lia |].
      specialize (Hm ltac:(lia)). lia.
    + exists (damped h exp a0 (dist - sp)). repeat split; [| lia].
      destruct (Z_le_gt_dec 0 (dist - sp)) as [Hge | Hlt].
      * specialize (Hp Hge). nia.
      * specialize (Hm ltac:(lia)). nia.
Qed.

End MotionMore.

(** X2, at a concrete input: the moves between 100 and 2100 under
    [bench]. *)
Lemma Move_cap_is_one_sided_witness :
  dac_of (snd (Move bench exp_at_0 2100 100 power_on)) = [1023]
  /\ exists v, dac_of (snd (Move bench exp_at_0 100 2100 power_on)) = [v]
               /\ v < -1023.
Proof.
  apply (Move_cap_is_one_sided bench exp_at_0 2100 100 100 2100 power_on power_on).
  - simpl. lia.
  - simpl. lia.
  - reflexivity.
  - simpl. lia.
  - vm_compute. reflexivity.
Defined.

(** X3, at a concrete input: the car 500 below the setpoint of floor 2. *)
Lemma Move_command_follows_difference_witness :
  exists v, dac_of (snd (Move bench exp_at_0 500 1000 power_on)) = [v]
            /\ 0 <= v * (500 - 1000) /\ v <= 1023.
Proof.
  apply (Move_command_follows_difference bench exp_at_0 500 1000 power_on).
  - lia.
  - vm_compute. discriminate.
  - vm_compute. discriminate.
  - vm_compute. split; [discriminate | reflexivity].
Defined.

(** ** Cycles, continued *)

Lemma sensed_of_app (t u : list event) :
  sensed_of (t ++ u) = sensed_of t ++ sensed_of u.
Proof.
  induction t as [| e t IH]; simpl; [reflexivity |].
  destruct e; simpl; rewrite IH; reflexivity.
Qed.

Lemma reads_of_app (t u : list event) :
  reads_of (t ++ u) = (reads_of t + reads_of u)%nat.
Proof.
  induction t as [| e t IH]; simpl; [reflexivity |].
  destruct e; simpl; rewrite IH; reflexivity.
Qed.

Lemma receive_events_no_sample (t : list event) :
  forallb receive_event t = true -> sensed_of t = [].
Proof.
  induction t as [| e t IH]; simpl; [reflexivity |].
  intros Ht. apply andb_true_iff in Ht. destruct Ht as [He Ht].
  destruct e; simpl in *; try discriminate; auto.
Qed.

Lemma transmit_events_quiet (t : list event) :
  forallb transmit_event t = true -> sensed_of t = [] /\ reads_of t = 0%nat.
Proof.
  induction t as [| e t IH]; simpl; [split; reflexivity |].
  intros Ht. apply andb_true_iff in Ht. destruct Ht as [He Ht].
  destruct e; simpl in *; try discriminate; auto.
Qed.

Lemma motion_events_no_read (t : list event) :
  forallb motion_event t = true -> reads_of t = 0%nat.
Proof.
  induction t as [| e t IH]; simpl; [reflexivity |].
  intros Ht. apply andb_true_iff in Ht. destruct Ht as [He Ht].
  destruct e; simpl in *; try discriminate; auto.
Qed.

Section CyclesMore.

Variable h : Header.
Variable exp : Q -> Q.

Lemma receiveCAN_one_read (f : option Frame) (cm : CANModule) (lcd : LCD) :
  reads_of (snd (receiveCAN h f cm lcd)) = 1%nat.
Proof.
  assert (Hmap : forall l, reads_of (map (fun b => Serial_print (RX_Data b)) l)
                           = 0%nat).
  { induction l as [| b l IH]; simpl; auto. }
  unfold receiveCAN. cbv zeta.
  destruct (Z.land (RxID (readMsgBuf f cm)) 0x80000000 =? 0x80000000);
    destruct (Z.land (RxID (readMsgBuf f cm)) 0x40000000 =? 0x40000000);
    (destruct (_ =? FLOOR1 h);
      [| destruct (_ =? FLOOR2 h); [| destruct (_ =? FLOOR3 h)]]);
    simpl; rewrite ?reads_of_app, ?Hmap; reflexivity.
Qed.

Lemma loop_receive_reads (i : Input) (ec : ElevatorController) :
  reads_of (snd (loop_receive h i ec)) = (if flagRecv ec then 1 else 0)%nat.
Proof.
  unfold loop_receive.
  destruct (flagRecv ec); [| reflexivity].
  pose proof (receiveCAN_one_read (bus i) (CM ec) (LCDM ec)) as Hr.
  destruct (receiveCAN h (bus i) (CM ec) (LCDM ec)) as [[cm lcd] out].
  exact Hr.
Qed.

Lemma Move_driveCommand (dist sp : Z) (ec : ElevatorController) :
  dac_of (snd (Move h exp dist sp ec)) = [driveCommand h exp dist sp]
  /\ sensed_of (snd (Move h exp dist sp ec)) = [dist].
Proof.
  unfold driveCommand.
  rewrite (Move_events_state h exp dist sp power_on ec).
  destruct (Move_one_write h exp dist sp ec) as [v Hv]. rewrite Hv.
  split; [reflexivity |].
  unfold Move.
  destruct ((dist >? MINHEIGHT h) && (dist <? MAXHEIGHT h)); reflexivity.
Qed.

(** Both flags are down after a cycle. *)
Lemma loop_flags (i : Input) (ec : ElevatorController) :
  flagRecv (fst (loop h exp i ec)) = false
  /\ flagTx (fst (loop h exp i ec)) = false.
Proof.
  pose proof (loop_steps h exp i ec) as Hl. cbv zeta in Hl. rewrite Hl. clear Hl.
  simpl fst. rewrite checkCurrentFloor_eq. simpl.
  assert (Hm : forall d s e, flagRecv (fst (Move h exp d s e)) = flagRecv e
                             /\ flagTx (fst (Move h exp d s e)) = flagTx e).
  { intros d s e. unfold Move.
    destruct ((d >? MINHEIGHT h) && (d <? MAXHEIGHT h)); split; reflexivity. }
  destruct (Hm (distance i)
               (getSetpoint (CM (fst (loop_transmit h i (fst (loop_receive h i ec))))))
               (fst (loop_transmit h i (fst (loop_receive h i ec))))) as (-> & ->).
  unfold loop_transmit, loop_receive.
  destruct (flagRecv ec) eqn:Er.
  - destruct (receiveCAN h (bus i) (CM ec) (LCDM ec)) as [[cm lcd] out]. simpl.
    destruct (flagTx ec); split; reflexivity.
  - cbn [fst]. destruct (flagTx ec) eqn:Et; cbn; rewrite ?Er, ?Et; split; reflexivity.
Qed.

(** A cycle entered with both flags down does the motion step and the
    re-estimation only. *)
Lemma loop_quiet (i : Input) (ec : ElevatorController) :
  flagRecv ec = false -> flagTx ec = false ->
  CM (fst (loop h exp i ec)) = CM ec
  /\ snd (loop h exp i ec)
     = snd (Move h exp (distance i) (setpoint (CM ec)) ec).
Proof.
  intros Hr Ht.
  pose proof (loop_steps h exp i ec) as Hl. cbv zeta in Hl. rewrite Hl. clear Hl.
  unfold loop_receive. rewrite Hr. simpl.
  unfold loop_transmit. rewrite Ht. simpl.
  rewrite checkCurrentFloor_eq. simpl.
  destruct (Move_keeps h exp (distance i) (getSetpoint (CM ec)) ec) as (Hc & _).
  split; [exact Hc | reflexivity].
Qed.

Lemma cycles_quiet (inputs : list Input) (ec : ElevatorController) :
  flagRecv ec = false -> flagTx ec = false ->
  CM (fst (cycles h exp inputs ec)) = CM ec
  /\ sent_of (snd (cycles h exp inputs ec)) = []
  /\ reads_of (snd (cycles h exp inputs ec)) = 0%nat
  /\ sensed_of (snd (cycles h exp inputs ec)) = map distance inputs
  /\ dac_of (snd (cycles h exp inputs ec))
     = map (fun i => driveCommand h exp (distance i) (setpoint (CM ec))) inputs.
Proof.
  revert ec.
  induction inputs as [| i inputs IH]; intros ec Hr Ht; simpl.
  - repeat split.
  - destruct (loop_quiet i ec Hr Ht) as (Hc & He).
    destruct (loop_flags i ec) as (Hr1 & Ht1).
    destruct (loop h exp i ec) as [ec1 t]. simpl in *.
    specialize (IH ec1 Hr1 Ht1).
    destruct (cycles h exp inputs ec1) as [ec2 u]. simpl in *.
    destruct IH as (IHc & IHs & IHr & IHd & IHv).
    destruct (Move_events h exp (distance i) (setpoint (CM ec)) ec) as (Hm & _).
    destruct (Move_driveCommand (distance i) (setpoint (CM ec)) ec) as (Hv & Hd).
    rewrite sent_of_app, reads_of_app, sensed_of_app, dac_of_app.
    rewrite IHc, IHs, IHr, IHd, IHv, Hc, He.
    rewrite (motion_events_no_send _ Hm), (motion_events_no_read _ Hm), Hv, Hd.
    repeat split.
Qed.

(** X4.  Every control cycle reads the sensor exactly once, writes the
    DAC exactly once - with the command for the sampled distance and the
    setpoint that receive servicing leaves - reads the CAN controller once
    if a message was flagged and not at all otherwise, and sends once if
    the timer had ticked and not at all otherwise. *)
Theorem loop_one_sample_one_command (i : Input) (ec : ElevatorController) :
  sensed_of (snd (loop h exp i ec)) = [distance i]
  /\ dac_of (snd (loop h exp i ec))
     = [driveCommand h exp (distance i)
                     (setpoint (CM (fst (loop_receive h i ec))))]
  /\ reads_of (snd (loop h exp i ec)) = (if flagRecv ec then 1 else 0)%nat
  /\ List.length (sent_of (snd (loop h exp i ec)))
     = (if flagTx ec then 1 else 0)%nat.
Proof.
  destruct (loop_outputs h exp i ec) as (Hd & Hs).
  rewrite Hd, Hs.
  destruct (Move_driveCommand (distance i)
              (setpoint (CM (fst (loop_receive h i ec)))) ec) as (Hv & _).
  rewrite Hv.
  pose proof (loop_steps h exp i ec) as Hl. cbv zeta in Hl. rewrite Hl. clear Hl.
  simpl snd.
  set (ec1 := fst (loop_receive h i ec)).
  set (ec2 := fst (loop_transmit h i ec1)).
  destruct (loop_receive_events h i ec) as (Hr & _).
  destruct (loop_transmit_events h i ec1) as (Ht & _).
  destruct (transmit_events_quiet _ Ht) as (Hts & Htr).
  destruct (Move_events h exp (distance i) (getSetpoint (CM ec2)) ec2) as (Hm & _).
  destruct (Move_driveCommand (distance i) (getSetpoint (CM ec2)) ec2) as (_ & Hsd).
  rewrite !sensed_of_app, !reads_of_app.
  rewrite (receive_events_no_sample _ Hr), Hts, Htr, Hsd.
  rewrite (motion_events_no_read _ Hm), loop_receive_reads.
  repeat split.
  - destruct (flagRecv ec); reflexivity.
  - destruct (flagTx ec); reflexivity.
Qed.

(** X5.  A flag is serviced once.  After any cycle, however many cycles
    follow without a new interrupt: nothing is read from the CAN
    controller, nothing is sent, the CAN module stays as it is, and each
    cycle samples the distance and drives the motor for the unchanged
    setpoint. *)
Theorem cycles_after_service
  (i : Input) (inputs : list Input) (ec : ElevatorController) :
  flagRecv (fst (loop h exp i ec)) = false
  /\ flagTx (fst (loop h exp i ec)) = false
  /\ CM (fst (cycles h exp inputs (fst (loop h exp i ec))))
     = CM (fst (loop h exp i ec))
  /\ sent_of (snd (cycles h exp inputs (fst (loop h exp i ec)))) = []
  /\ reads_of (snd (cycles h exp inputs (fst (loop h exp i ec)))) = 0%nat
  /\ sensed_of (snd (cycles h exp inputs (fst (loop h exp i ec))))
     = map distance inputs
  /\ dac_of (snd (cycles h exp inputs (fst (loop h exp i ec))))
     = map (fun j => driveCommand h exp (distance j)
                       (setpoint (CM (fst (loop h exp i ec))))) inputs.
Proof.
  destruct (loop_flags i ec) as (Hr & Ht).
  split; [exact Hr |]. split; [exact Ht |].
  exact (cycles_quiet inputs _ Hr Ht).
Qed.

(** An action of one group is not found among the actions of another. *)
Lemma existsb_other_group (p q : event -> bool) (t : list event) :
  (forall e, q e = true -> p e = false) ->
  forallb q t = true -> existsb p t = false.
Proof.
  intros Hpq.
  induction t as [| e t IH]; simpl; [reflexivity |].
  intros Ht. apply andb_true_iff in Ht. destruct Ht as [He Ht].
  rewrite (Hpq e He), (IH Ht). reflexivity.
Qed.

(** X6.  The outcome of a send changes the log line and nothing else:
    the state after the cycle, the payloads handed to the CAN controller
    and the DAC writes are the same whatever [sendMsgBuf] reports (there
    is no retry); the error line is logged exactly when a transmit was
    serviced and failed, the data line exactly when one was serviced and
    succeeded. *)
Theorem loop_send_failure_only_logged
  (f : option Frame) (s s' : bool) (dist : Z) (ec : ElevatorController) :
  fst (loop h exp (mkInput f s dist) ec)
  = fst (loop h exp (mkInput f s' dist) ec)
  /\ sent_of (snd (loop h exp (mkInput f s dist) ec))
     = sent_of (snd (loop h exp (mkInput f s' dist) ec))
  /\ dac_of (snd (loop h exp (mkInput f s dist) ec))
     = dac_of (snd (loop h exp (mkInput f s' dist) ec))
  /\ existsb logs_TX_Error (snd (loop h exp (mkInput f s dist) ec))
     = flagTx ec && negb s
  /\ existsb logs_TX_Data (snd (loop h exp (mkInput f s dist) ec))
     = flagTx ec && s.
Proof.
  assert (Hrx : loop_receive h (mkInput f s dist) ec
                = loop_receive h (mkInput f s' dist) ec) by reflexivity.
  assert (Htx : forall e, fst (loop_transmit h (mkInput f s dist) e)
                          = fst (loop_transmit h (mkInput f s' dist) e)).
  { intros e. unfold loop_transmit. destruct (flagTx e); reflexivity. }
  assert (Hlog : forall p,
            (forall e, receive_event e = true -> p e = false) ->
            (forall e, motion_event e = true -> p e = false) ->
            existsb p (snd (loop h exp (mkInput f s dist) ec))
            = existsb p (snd (loop_transmit h (mkInput f s dist)
                                (fst (loop_receive h (mkInput f s dist) ec))))).
  { intros p Hpr Hpm.
    pose proof (loop_steps h exp (mkInput f s dist) ec) as H1.
    cbv zeta in H1. rewrite H1. simpl snd.
    destruct (loop_receive_events h (mkInput f s dist) ec) as (Hr & _).
    destruct (Move_events h exp dist
                (getSetpoint (CM (fst (loop_transmit h (mkInput f s dist)
                                         (fst (loop_receive h (mkInput f s dist) ec))))))
                (fst (loop_transmit h (mkInput f s dist)
                        (fst (loop_receive h (mkInput f s dist) ec)))))
      as (Hm & _).
    rewrite !existsb_app.
    rewrite (existsb_other_group p receive_event _ Hpr Hr).
    rewrite (existsb_other_group p motion_event _ Hpm Hm).
    rewrite orb_false_r. reflexivity. }
  destruct (loop_receive_keeps h (mkInput f s dist) ec) as (_ & _ & Hx & _).
  split; [| split; [| split; [| split]]].
  - pose proof (loop_steps h exp (mkInput f s dist) ec) as H1.
    pose proof (loop_steps h exp (mkInput f s' dist) ec) as H2.
    cbv zeta in H1, H2. rewrite H1, H2. simpl fst.
    rewrite Hrx, Htx. reflexivity.
  - destruct (loop_outputs h exp (mkInput f s dist) ec) as (_ & ->).
    destruct (loop_outputs h exp (mkInput f s' dist) ec) as (_ & ->).
    reflexivity.
  - destruct (loop_outputs h exp (mkInput f s dist) ec) as (-> & _).
    destruct (loop_outputs h exp (mkInput f s' dist) ec) as (-> & _).
    rewrite Hrx. reflexivity.
  - rewrite Hlog.
    + unfold loop_transmit. rewrite Hx.
      destruct (flagTx ec); [| reflexivity].
      destruct s; reflexivity.
    + intros e He. destruct e as [m | | | | | | | | | |]; try reflexivity.
      destruct m; simpl in *; try reflexivity; discriminate.
    + intros e He. destruct e as [m | | | | | | | | | |]; try reflexivity.
      simpl in He. discriminate.
  - rewrite Hlog.
    + unfold loop_transmit. rewrite Hx.
      destruct (flagTx ec); [| reflexivity].
      destruct s; reflexivity.
    + intros e He. destruct e as [m | | | | | | | | | |]; try reflexivity.
      destruct m; simpl in *; try reflexivity; discriminate.
    + intros e He. destruct e as [m | | | | | | | | | |]; try reflexivity.
      simpl in He. discriminate.
Qed.

(** X7.  After [setup], whatever the state before it, cycles without an
    interrupt send nothing and drive the motor towards floor 1: every
    command is the one for the sampled distance and the setpoint of
    floor 1, as the 16-bit member holds it. *)
Theorem setup_homes_to_floor_1 (inputs : list Input) (ec0 : ElevatorController) :
  sent_of (snd (cycles h exp inputs (fst (setup h ec0)))) = []
  /\ reads_of (snd (cycles h exp inputs (fst (setup h ec0)))) = 0%nat
  /\ dac_of (snd (cycles h exp inputs (fst (setup h ec0))))
     = map (fun i => driveCommand h exp (distance i) (uint16 (FLOOR1_SP h)))
           inputs.
Proof.
  destruct (cycles_quiet inputs (fst (setup h ec0)) eq_refl eq_refl)
    as (_ & Hs & Hr & _ & Hd).
  repeat split; assumption.
Qed.

(** X8.  The current floor after a run of cycles is the estimator folded
    over the sampled distances, starting from the floor before the run:
    it depends on the distances only, not on the bus traffic, the flags
    or the setpoint. *)
Theorem cycles_floor_from_distances
  (inputs : list Input) (ec : ElevatorController) :
  m_currentFloor (fst (cycles h exp inputs ec))
  = fold_left (fun f i => estimate h (distance i) f) inputs (m_currentFloor ec).
Proof.
  revert ec.
  induction inputs as [| i inputs IH]; intros ec; simpl; [reflexivity |].
  destruct (loop_state h exp i ec) as (_ & _ & _ & Hf).
  destruct (loop h exp i ec) as [ec1 t]. simpl in Hf.
  specialize (IH ec1).
  destruct (cycles h exp inputs ec1) as [ec2 u]. simpl in *.
  rewrite IH, Hf. reflexivity.
Qed.

End CyclesMore.

(** ** Floors and setpoints, continued *)

Section FloorsMore.

Variable h : Header.
Variable exp : Q -> Q.



(** X9.  In every state the controller can reach, the setpoint is the
    setpoint of one of the three floors (the floor setpoints being values
    of a 16-bit unsigned member). *)
Theorem reachable_setpoint_of_a_floor (ec : ElevatorController) :
  reachable h exp ec ->
  (forall f, 0 <= setpoint_of h f < 65536) ->
  exists f, setpoint (CM ec) = setpoint_of h f.
Proof.
  intros Hr Hsp.
  destruct (reachable_setpoint h exp ec Hr) as [f Hf].
  exists f. rewrite Hf. unfold uint16. apply Z.mod_small, Hsp.
Qed.

(** X10.  Once the current floor is not 0 it is a floor code, and it is
    a floor code again after every further cycle: a known floor never
    becomes unknown. *)
Theorem known_floor_stays_known (i : Input) (ec : ElevatorController) :
  reachable h exp ec ->
  m_currentFloor ec <> 0 ->
  (exists f, m_currentFloor ec = code_of h f)
  /\ (exists f, m_currentFloor (fst (loop h exp i ec)) = code_of h f).
Proof.
  intros Hr Hn.
  assert (Hk : exists f, m_currentFloor ec = code_of h f).
  { destruct (reachable_currentFloor h exp ec Hr) as [H0 | Hf];
      [contradiction | exact Hf]. }
  split; [exact Hk |].
  destruct (loop_state h exp i ec) as (_ & _ & _ & Hf). rewrite Hf.
  destruct (estimate_cases h (distance i) (m_currentFloor ec)) as [He | He].
  - rewrite He. exact Hk.
  - exact He.
Qed.



(** X13.  The identifier of a message - standard or extended, remote
    request or not - has no influence on control: two cycles that differ
    in the identifier of the received frame only end with the same
    setpoint, the same floor label after receive servicing and the same
    current floor, and make the same DAC writes and the same sends. *)
Theorem loop_identifier_blind
  (id id' n : Z) (data : list Z) (s : bool) (dist : Z)
  (ec : ElevatorController) :
  setpoint (CM (fst (loop h exp (mkInput (Some (mkFrame id n data)) s dist) ec)))
  = setpoint (CM (fst (loop h exp (mkInput (Some (mkFrame id' n data)) s dist) ec)))
  /\ floorLabel (LCDM (fst (loop_receive h
                             (mkInput (Some (mkFrame id n data)) s dist) ec)))
     = floorLabel (LCDM (fst (loop_receive h
                             (mkInput (Some (mkFrame id' n data)) s dist) ec)))
  /\ m_currentFloor (fst (loop h exp (mkInput (Some (mkFrame id n data)) s dist) ec))
     = m_currentFloor (fst (loop h exp (mkInput (Some (mkFrame id' n data)) s dist) ec))
  /\ dac_of (snd (loop h exp (mkInput (Some (mkFrame id n data)) s dist) ec))
     = dac_of (snd (loop h exp (mkInput (Some (mkFrame id' n data)) s dist) ec))
  /\ sent_of (snd (loop h exp (mkInput (Some (mkFrame id n data)) s dist) ec))
     = sent_of (snd (loop h exp (mkInput (Some (mkFrame id' n data)) s dist) ec)).
Proof.
  set (i := mkInput (Some (mkFrame id n data)) s dist).
  set (i' := mkInput (Some (mkFrame id' n data)) s dist).
  assert (Hrx : setpoint (CM (fst (loop_receive h i ec)))
                = setpoint (CM (fst (loop_receive h i' ec)))
                /\ LCDM (fst (loop_receive h i ec))
                   = LCDM (fst (loop_receive h i' ec))).
  { unfold loop_receive. destruct (flagRecv ec); [| split; reflexivity].
    destruct (receiveCAN_identifier_blind h id id' n data (CM ec) (LCDM ec))
      as (Hs & Hl).
    simpl bus.
    destruct (receiveCAN h (Some (mkFrame id n data)) (CM ec) (LCDM ec))
      as [[cm lcd] out].
    destruct (receiveCAN h (Some (mkFrame id' n data)) (CM ec) (LCDM ec))
      as [[cm' lcd'] out'].
    simpl in *. split; assumption. }
  destruct Hrx as (Hs & Hl).
  destruct (loop_state h exp i ec) as (Hs1 & _ & _ & Hf1).
  destruct (loop_state h exp i' ec) as (Hs2 & _ & _ & Hf2).
  destruct (loop_outputs h exp i ec) as (Hd1 & Hp1).
  destruct (loop_outputs h exp i' ec) as (Hd2 & Hp2).
  rewrite Hs1, Hs2, Hf1, Hf2, Hd1, Hd2, Hp1, Hp2, Hs, Hl.
  repeat split.
Qed.

End FloorsMore.

(** X9, at a concrete input: the controller at floor 2 under [bench]. *)
Lemma reachable_setpoint_of_a_floor_witness :
  reachable bench exp_at_0 at_floor2
  /\ exists f, setpoint (CM at_floor2) = setpoint_of bench f.
Proof.
  assert (Hr : reachable bench exp_at_0 at_floor2)
    by (apply reach_loop, reach_setup).
  split; [exact Hr |].
  apply (reachable_setpoint_of_a_floor bench exp_at_0 at_floor2 Hr).
  intros f. destruct f; simpl; lia.
Defined.

(** X10, at a concrete input: the car leaves floor 2 and is sampled
    between floors. *)
Lemma known_floor_stays_known_witness :
  m_currentFloor at_floor2 <> 0
  /\ (exists f, m_currentFloor at_floor2 = code_of bench f)
  /\ (exists f, m_currentFloor (fst (loop bench exp_at_0 (mkInput None true 500)
                                          at_floor2))
                = code_of bench f).
Proof.
  assert (Hn : m_currentFloor at_floor2 <> 0) by (vm_compute; discriminate).
  split; [exact Hn |].
  apply (known_floor_stays_known bench exp_at_0 (mkInput None true 500) at_floor2).
  - apply reach_loop, reach_setup.
  - exact Hn.
Defined.



(** ** The CAN module's accessors and the timer *)

(** X14.  What is written with [setSetpoint] and [setTxdata] is read back
    by [getSetpoint] and [getTxdata] reduced to 16 and to 8 bits; the two
    members do not disturb each other, the rest of the transmit buffer is
    kept, and a second [setTxdata] overwrites the first. *)
Theorem CANModule_accessors (sp data data' : Z) (cm : CANModule) :
  getSetpoint (setSetpoint sp cm) = sp mod 65536
  /\ getTxdata (setTxdata data cm) = data mod 256
  /\ getTxdata (setSetpoint sp cm) = getTxdata cm
  /\ getSetpoint (setTxdata data cm) = getSetpoint cm
  /\ tl (txdata (setTxdata data cm)) = tl (txdata cm)
  /\ setTxdata data (setTxdata data' cm) = setTxdata data cm
  /\ (0 <= getSetpoint (setSetpoint sp cm) < 65536)
  /\ (0 <= getTxdata (setTxdata data cm) < 256).
Proof.
  repeat split; try reflexivity.
  - unfold getSetpoint, setSetpoint, uint16. simpl.
    apply Z.mod_pos_bound. lia.
  - unfold getSetpoint, setSetpoint, uint16. simpl.
    apply Z.mod_pos_bound. lia.
  - unfold getTxdata, setTxdata, byte. simpl.
    apply Z.mod_pos_bound. lia.
  - unfold getTxdata, setTxdata, byte. simpl.
    apply Z.mod_pos_bound. lia.
Qed.

(** X15.  Whatever the registers held before, [initializeTimer] leaves
    timer 1 in CTC mode with prescaler 1024 (TCCR1A = 0, TCCR1B = 13),
    the counter at 0 and a compare value that makes 16 000 000 clock
    cycles per match; in TIMSK1 it sets the compare-match bit and keeps
    every other bit; interrupts are enabled again, the transmit flag is
    down and no other member of the controller changes. *)
Theorem initializeTimer_configures (t : Timer1) (ec : ElevatorController) (n : Z) :
  TCCR1A (fst (initializeTimer t ec)) = 0
  /\ TCCR1B (fst (initializeTimer t ec)) = 13
  /\ TCNT1 (fst (initializeTimer t ec)) = 0
  /\ (OCR1A (fst (initializeTimer t ec)) + 1) * 1024 = 16000000
  /\ Z.testbit (TIMSK1 (fst (initializeTimer t ec))) n
     = Z.testbit (TIMSK1 t) n || (n =? OCIE1A)
  /\ interrupts (fst (initializeTimer t ec)) = true
  /\ snd (initializeTimer t ec)
     = mkElevatorController (CM ec) (LCDM ec) (m_dist ec) (m_currentFloor ec)
                            (a ec) (flagRecv ec) false.
Proof.
  assert (Ht : fst (initializeTimer t ec)
               = mkTimer1 0 13 0 15624 (Z.lor (TIMSK1 t) 2) true)
    by reflexivity.
  rewrite Ht. cbn [TCCR1A TCCR1B TCNT1 OCR1A TIMSK1 interrupts].
  split; [reflexivity |].
  split; [reflexivity |].
  split; [reflexivity |].
  split; [reflexivity |].
  split; [| split; reflexivity].
  rewrite Z.lor_spec. f_equal.
  unfold OCIE1A. change (Z.testbit 2 n) with (Z.testbit (2 ^ 1) n).
  destruct (Z_lt_le_dec n 0) as [Hneg | Hpos].
  - rewrite Z.testbit_neg_r by exact Hneg.
    symmetry. apply Z.eqb_neq. lia.
  - rewrite Z.pow2_bits_eqb by lia. apply Z.eqb_sym.
Qed.

(** ** The receive log *)

Lemma logged_of_app (t u : list event) :
  logged_of (t ++ u) = logged_of t ++ logged_of u.
Proof.
  induction t as [| e t IH]; simpl; [reflexivity |].
  destruct e as [m | | | | | | | | | |]; simpl; try exact IH.
  destruct m; simpl; rewrite IH; reflexivity.
Qed.

Lemma logged_of_data (l : list Z) :
  logged_of (map (fun b => Serial_print (RX_Data b)) l) = l.
Proof.
  induction l as [| b l IH]; simpl; [reflexivity |].
  rewrite IH. reflexivity.
Qed.

(** X16.  For a message whose length field is the number of its data
    bytes, [receiveCAN] stores those bytes at the front of the receive
    buffer and keeps the bytes behind them; the serial log shows exactly
    the message's data bytes for a data frame and no data byte at all for
    a remote request frame. *)
Theorem receiveCAN_log (h : Header) (fr : Frame) (cm : CANModule) (lcd : LCD) :
  frame_len fr = Z.of_nat (List.length (frame_data fr)) ->
  rxdata (fst (fst (receiveCAN h (Some fr) cm lcd)))
  = frame_data fr ++ skipn (List.length (frame_data fr)) (rxdata cm)
  /\ logged_of (snd (receiveCAN h (Some fr) cm lcd))
     = (if Z.land (frame_id fr) 0x40000000 =? 0x40000000
        then [] else frame_data fr).
Proof.
  intros Hlen.
  assert (Hn : Z.to_nat (frame_len fr) = List.length (frame_data fr))
    by (rewrite Hlen; apply Nat2Z.id).
  assert (Hrx : rxdata (readMsgBuf (Some fr) cm)
                = frame_data fr ++ skipn (List.length (frame_data fr)) (rxdata cm)).
  { simpl. rewrite Hn, firstn_all. reflexivity. }
  assert (Hfirst : firstn (Z.to_nat (len (readMsgBuf (Some fr) cm)))
                          (rxdata (readMsgBuf (Some fr) cm)) = frame_data fr).
  { rewrite Hrx. simpl len. rewrite Hn.
    rewrite firstn_app, firstn_all, Nat.sub_diag. simpl.
    apply app_nil_r. }
  unfold receiveCAN. cbv zeta.
  rewrite Hfirst.
  replace (RxID (readMsgBuf (Some fr) cm)) with (frame_id fr) by reflexivity.
  destruct (Z.land (frame_id fr) 0x80000000 =? 0x80000000);
    destruct (Z.land (frame_id fr) 0x40000000 =? 0x40000000);
    (destruct (_ =? FLOOR1 h);
      [| destruct (_ =? FLOOR2 h); [| destruct (_ =? FLOOR3 h)]]);
    (split; [exact Hrx |]);
    simpl; rewrite ?logged_of_app, ?logged_of_data; simpl;
    rewrite ?app_nil_r; reflexivity.
Qed.

(** X16, at concrete inputs: a data frame of three bytes, and a remote
    request with the same length field. *)
Lemma receiveCAN_log_witness :
  logged_of (snd (receiveCAN bench (Some data_frame3) (CM started) (LCDM started)))
  = [6; 17; 34]
  /\ logged_of (snd (receiveCAN bench (Some remote_frame3) (CM started)
                                 (LCDM started)))
     = [].
Proof.
  split.
  - apply (receiveCAN_log bench data_frame3 (CM started) (LCDM started)).
    reflexivity.
  - apply (receiveCAN_log bench remote_frame3 (CM started) (LCDM started)).
    reflexivity.
Defined.
